(** * Patient Healthcare Dashboard: the table, its loader and the five view
      callbacks of [healthcare_dashbaord/app.py]

    The development embeds the data-carrying part of the dashboard:
    [load_data], the two summary statistics with the text the layout shows for
    them, the controls of the layout (dropdown options, slider range and
    marks), and the callbacks [update_age_distribution],
    [update_condition_distribution], [update_admission_trends],
    [update_billing_distribution] and [update_insurance_comparison].

    Modelling choices.
    - Numbers that pandas keeps as float64 are rationals ([Q]), kept in lowest
      terms with [Qred]; the missing-value marker NaN is [None].  Every cell
      of the table can be missing: [pd.read_csv] turns an empty cell into
      NaN.
    - A value that arrives from a Dash control is a [pyval]: [None], a boolean,
      a number or a string, with Python's truthiness.
    - Data frames live in a heap of frames addressed by position.  The global
      [df] is address 0.  [df[mask]] and [groupby(...).size().reset_index()]
      allocate a new frame, the [else df] branch of the filter aliases the
      global one, and [trend_df['YearMonth'] = ...] writes into a frame in
      place.
    - A callback is a computation in a state-and-exception monad over that
      heap; an exception keeps the heap it was raised in. *)

From Stdlib Require Import ZArith QArith Qround Qabs List Bool Ascii String Lia Sorted.
From Stdlib Require Import DecimalString.
Import ListNotations.

Local Open Scope string_scope.
Local Open Scope list_scope.
Local Open Scope Z_scope.

(** ** Values received from the controls *)

Inductive pyval : Type :=
| PNone
| PBool (b : bool)
| PNum (q : Q)
| PStr (s : string).

(** Python's [bool(v)], as used by [if selected_gender:]. *)
Definition truthy (v : pyval) : bool :=
  match v with
  | PNone => false
  | PBool b => b
  | PNum q => negb (Qeq_bool q 0)
  | PStr s => negb (String.eqb s "")
  end.

(** [cell == v] for a cell of an object column of strings: only an equal
    string compares equal, a missing cell compares equal to nothing. *)
Definition cell_eq (cell : option string) (v : pyval) : bool :=
  match cell, v with
  | Some c, PStr s => String.eqb c s
  | _, _ => false
  end.

(** [v == 'literal'] on the Python side. *)
Definition py_eq_str (v : pyval) (lit : string) : bool :=
  match v with
  | PStr s => String.eqb s lit
  | _ => false
  end.

(** ** Rows *)

Record date : Type := mkDate { year : Z; month : Z; day : Z }.

(** A monthly period is its ordinal: the number of months since 1970-01. *)
Definition period := Z.

(** A row of the table; [None] is a missing cell (NaN, or NaT for a date). *)
Record Row : Type := mkRow {
  Age : option Z;
  Gender : option string;
  MedicalCondition : option string;
  InsuranceProvider : option string;
  BillingAmount : option Q;
  DateOfAdmission : option date;
  YearMonth : option period
}.

(** A row as [pd.read_csv] hands it over: the two columns that [load_data]
    converts are still text. *)
Record CsvRow : Type := mkCsvRow {
  csv_Age : option Z;
  csv_Gender : option string;
  csv_MedicalCondition : option string;
  csv_InsuranceProvider : option string;
  csv_BillingAmount : string;
  csv_DateOfAdmission : string
}.

(** A file row with no empty cell among the four columns that are not
    converted. *)
Definition csv_row (age : Z) (gender condition provider billing admitted : string) : CsvRow :=
  mkCsvRow (Some age) (Some gender) (Some condition) (Some provider) billing admitted.

(** ** Exceptions and results *)

Inductive PyError : Type := TypeError | ValueError | KeyError | OverflowError.

Inductive Result (A : Type) : Type :=
| Ok (a : A)
| Raise (e : PyError).
Arguments Ok {A} a.
Arguments Raise {A} e.

(** ** Reading decimal text *)

Definition digit_val (c : ascii) : option Z :=
  let n := Z.of_nat (nat_of_ascii c) in
  if (48 <=? n) && (n <=? 57) then Some (n - 48) else None.

(** Consumes the leading digits of [s]: their value on top of [acc], how many
    there were on top of [n], and the rest of the text. *)
Fixpoint read_digits (s : string) (acc : Z) (n : nat) : Z * nat * string :=
  match s with
  | String c rest =>
      match digit_val c with
      | Some d => read_digits rest (10 * acc + d) (S n)
      | None => (acc, n, s)
      end
  | EmptyString => (acc, n, s)
  end.

Definition parse_unsigned (s : string) : option Q :=
  let '(i, ni, rest) := read_digits s 0 0 in
  match rest with
  | EmptyString => if Nat.eqb ni 0 then None else Some (inject_Z i)
  | String "."%char rest' =>
      let '(f, nf, rest'') := read_digits rest' 0 0 in
      match rest'' with
      | EmptyString =>
          if Nat.eqb (ni + nf) 0 then None
          else Some (Qred (Qmake (i * 10 ^ Z.of_nat nf + f)
                                 (Z.to_pos (10 ^ Z.of_nat nf))))
      | _ => None
      end
  | _ => None
  end.

(** [pd.to_numeric(text, errors='coerce')] on one cell: an optional sign and a
    decimal literal give a number, anything else the missing-value marker.
    (Exponents and the names inf and nan are outside the modelled grammar.) *)
Definition to_numeric (s : string) : option Q :=
  match s with
  | String "-"%char rest => option_map (fun q => Qred (Qopp q)) (parse_unsigned rest)
  | String "+"%char rest => parse_unsigned rest
  | _ => parse_unsigned s
  end.

(** ** Reading dates *)

Definition is_leap (y : Z) : bool :=
  ((y mod 4 =? 0) && negb (y mod 100 =? 0)) || (y mod 400 =? 0).

Definition days_in_month (y m : Z) : Z :=
  if (m =? 2) then (if is_leap y then 29 else 28)
  else if (m =? 4) || (m =? 6) || (m =? 9) || (m =? 11) then 30
  else 31.

Definition valid_date (d : date) : bool :=
  (1 <=? month d) && (month d <=? 12) && (1 <=? day d) && (day d <=? days_in_month (year d) (month d)).

(** Exactly [k] digits at the head of [s]. *)
Fixpoint read_fixed (k : nat) (s : string) (acc : Z) : option (Z * string) :=
  match k with
  | O => Some (acc, s)
  | S k' =>
      match s with
      | String c rest =>
          match digit_val c with
          | Some d => read_fixed k' rest (10 * acc + d)
          | None => None
          end
      | EmptyString => None
      end
  end.

Definition parse_iso_date (s : string) : option date :=
  match read_fixed 4 s 0 with
  | Some (y, String "-"%char s1) =>
      match read_fixed 2 s1 0 with
      | Some (m, String "-"%char s2) =>
          match read_fixed 2 s2 0 with
          | Some (d, EmptyString) =>
              let dt := mkDate y m d in
              if valid_date dt then Some dt else None
          | _ => None
          end
      | _ => None
      end
  | _ => None
  end.

(** [pd.to_datetime] on one cell.  An empty cell is NaT; a cell in the
    dataset's YYYY-MM-DD form is that day; text that is no date raises, which
    aborts the whole load.  (Only the YYYY-MM-DD notation is modelled as
    readable.) *)
Definition to_datetime (s : string) : Result (option date) :=
  match s with
  | EmptyString => Ok None
  | _ => match parse_iso_date s with
         | Some d => Ok (Some d)
         | None => Raise ValueError
         end
  end.

(** [.dt.to_period('M')]: the month the day falls in. *)
Definition to_period (d : date) : period :=
  (year d - 1970) * 12 + (month d - 1).

(** ** The loader *)

Definition load_row (c : CsvRow) : Result Row :=
  match to_datetime (csv_DateOfAdmission c) with
  | Raise e => Raise e
  | Ok d =>
      Ok {| Age := csv_Age c;
            Gender := csv_Gender c;
            MedicalCondition := csv_MedicalCondition c;
            InsuranceProvider := csv_InsuranceProvider c;
            BillingAmount := to_numeric (csv_BillingAmount c);
            DateOfAdmission := d;
            YearMonth := option_map to_period d |}
  end.

(** [load_data], from the rows that [pd.read_csv] produced.  The source
    converts column by column; row by row gives the same table, and the same
    failure when a date is unreadable, since the billing conversion never
    raises. *)
Fixpoint load_data (csv : list CsvRow) : Result (list Row) :=
  match csv with
  | [] => Ok []
  | c :: rest =>
      match load_row c with
      | Raise e => Raise e
      | Ok r =>
          match load_data rest with
          | Raise e => Raise e
          | Ok rs => Ok (r :: rs)
          end
      end
  end.

(** ** Summary statistics *)

Definition num_records (table : list Row) : nat := List.length table.

(** The cells of a column that are not missing. *)
Fixpoint present {A : Type} (cells : list (option A)) : list A :=
  match cells with
  | [] => []
  | Some q :: rest => q :: present rest
  | None :: rest => present rest
  end.

Definition Qsum (l : list Q) : Q := fold_left Qplus l (0 # 1).

(** [Series.mean()]: missing cells are skipped; with nothing left the mean is
    NaN. *)
Definition mean (cells : list (option Q)) : option Q :=
  match present cells with
  | [] => None
  | q :: qs =>
      Some (Qred (Qsum (q :: qs) / inject_Z (Z.of_nat (List.length (q :: qs)))))
  end.

Definition avg_billing (table : list Row) : option Q :=
  mean (map BillingAmount table).

(** ** Text rendering *)

Definition decimal (z : Z) : string :=
  NilZero.string_of_uint (N.to_uint (Z.to_N z)).

(** Left-pads the decimal form of [z] with zeros up to [width] characters. *)
Fixpoint zeros (n : nat) : string :=
  match n with
  | O => EmptyString
  | S n' => String "0"%char (zeros n')
  end.

Definition pad (width : nat) (z : Z) : string :=
  let d := decimal z in
  String.append (zeros (width - String.length d)) d.

(** Walks the digits from the least significant one; [k] digits of the current
    group of three are already out. *)
Fixpoint commas_rev (rev_digits : list ascii) (k : nat) : list ascii :=
  match rev_digits with
  | [] => []
  | c :: rest =>
      if Nat.eqb k 3 then ","%char :: c :: commas_rev rest 1
      else c :: commas_rev rest (S k)
  end.

Definition group_thousands (digits : string) : string :=
  string_of_list_ascii (rev (commas_rev (rev (list_ascii_of_string digits)) 0)).

(** Nearest integer, ties to the even neighbour. *)
Definition round_half_even (q : Q) : Z :=
  let f := Qfloor q in
  match Qcompare (q - inject_Z f) (1 # 2) with
  | Lt => f
  | Gt => f + 1
  | Eq => if Z.even f then f else f + 1
  end.

(** The format specification [,.2f]: NaN prints as nan; a number prints with a
    thousands separator and two decimals, rounded from its exact value. *)
Definition format_comma_2f (x : option Q) : string :=
  match x with
  | None => "nan"
  | Some q =>
      let cents := round_half_even (Qabs q * inject_Z 100) in
      String.append (if Qle_bool 0 q then "" else "-")
        (String.append (group_thousands (decimal (cents / 100)))
           (String.append "." (pad 2 (cents mod 100))))
  end.

(** The two texts of the summary row of the layout. *)
Definition summary_records_text (table : list Row) : string :=
  String.append "Total Patient Records: " (decimal (Z.of_nat (num_records table))).

Definition summary_billing_text (table : list Row) : string :=
  String.append "Average Billing Amount: $" (format_comma_2f (avg_billing table)).

(** [str(period)] for a monthly period: YYYY-MM.  (pandas timestamps lie
    between the years 1677 and 2262, so the year has four digits.) *)
Definition period_str (p : period) : string :=
  String.append (pad 4 (1970 + p / 12)) (String.append "-" (pad 2 (p mod 12 + 1))).

(** Does [needle] occur in [hay]? *)
Fixpoint contains (needle hay : string) : bool :=
  String.prefix needle hay ||
  match hay with
  | EmptyString => false
  | String _ rest => contains needle rest
  end.

(** ** Chart specifications *)

(** What a callback returns.  A chart carries the cells of its columns as
    they are, missing ones included; a histogram carries the cells of each
    colour series and the requested number of bins, and counting into bins is
    left to the renderer. *)
Inductive Figure : Type :=
| EmptyFigure
| Histogram (title x : string) (nbins : nat) (traces : list (string * list (option Q)))
| Pie (title names : string) (labels : list (option string))
| Line (title x y : string) (points : list (string * nat))
| Bar (title x y : string) (points : list (string * nat))
| GroupedBar (title x y : string)
             (traces : list (string * list (option string * option Q))).

(** ** The heap of data frames *)

Inductive YMCell : Type :=
| YPeriod (p : period)
| YStr (s : string).

Inductive Frame : Type :=
| Records (rows : list Row)
| Trend (rows : list (YMCell * nat)).

Definition Heap := list Frame.
Definition ref := nat.

Definition M (A : Type) : Type := Heap -> Result A * Heap.

Definition ret {A} (a : A) : M A := fun h => (Ok a, h).

Definition bind {A B} (m : M A) (k : A -> M B) : M B :=
  fun h =>
    match m h with
    | (Ok a, h') => k a h'
    | (Raise e, h') => (Raise e, h')
    end.

Definition raise {A} (e : PyError) : M A := fun h => (Raise e, h).

Notation "x <- m ;; k" := (bind m (fun x => k))
  (at level 61, m at next level, right associativity).

(** Replaces the frame at address [r]. *)
Fixpoint store (r : ref) (f : Frame) (h : Heap) : Heap :=
  match h, r with
  | [], _ => []
  | _ :: t, O => f :: t
  | x :: t, S r' => x :: store r' f t
  end.

Definition new_frame (f : Frame) : M ref :=
  fun h => (Ok (List.length h), h ++ [f]).

Definition records_of (r : ref) : M (list Row) :=
  fun h =>
    match nth_error h r with
    | Some (Records rows) => (Ok rows, h)
    | _ => (Raise KeyError, h)
    end.

Definition trend_of (r : ref) : M (list (YMCell * nat)) :=
  fun h =>
    match nth_error h r with
    | Some (Trend rows) => (Ok rows, h)
    | _ => (Raise KeyError, h)
    end.

(** [frame[mask]]: a new frame with the rows the mask keeps. *)
Definition getitem_mask (r : ref) (mask : Row -> bool) : M ref :=
  rows <- records_of r ;;
  new_frame (Records (filter mask rows)).

(** [trend_df['YearMonth'] = column]: writes the column into the frame at
    [r], in place. *)
Definition setitem_YearMonth (r : ref) (column : list YMCell) : M unit :=
  rows <- trend_of r ;;
  fun h => (Ok tt, store r (Trend (combine column (map snd rows))) h).

(** The module-level table. *)
Definition df : ref := O.

(** The heap right after [df = load_data()]. *)
Definition loaded (table : list Row) : Heap := [Records table].

(** ** Grouping *)

(** Appends [v] to the group of key [k], opening a new last group when the key
    is new: the colour series of a chart, in order of first appearance. *)
Fixpoint add_to_group {V : Type} (k : string) (v : V) (groups : list (string * list V))
  : list (string * list V) :=
  match groups with
  | [] => [(k, [v])]
  | (k', vs) :: rest =>
      if String.eqb k k' then (k', vs ++ [v]) :: rest
      else (k', vs) :: add_to_group k v rest
  end.

(** The colour series of a chart.  A row whose key is missing belongs to no
    series. *)
Definition group_by {V : Type} (key : Row -> option string) (val : Row -> V)
           (rows : list Row) : list (string * list V) :=
  fold_left (fun acc r => match key r with
                          | Some k => add_to_group k (val r) acc
                          | None => acc
                          end) rows [].

(** One more row for month [k] in a list of (month, count) kept in increasing
    month order. *)
Fixpoint bump (k : period) (buckets : list (period * nat)) : list (period * nat) :=
  match buckets with
  | [] => [(k, 1%nat)]
  | (k', n) :: rest =>
      if k <? k' then (k, 1%nat) :: (k', n) :: rest
      else if k =? k' then (k', S n) :: rest
      else (k', n) :: bump k rest
  end.

(** [groupby('YearMonth').size()]: one bucket per month present, in key order;
    rows whose key is NaT belong to no bucket. *)
Definition groupby_size (keys : list (option period)) : list (period * nat) :=
  fold_left (fun acc k => match k with Some p => bump p acc | None => acc end) keys [].

(** ** The view callbacks *)

(** [df[df[column] == selected] if selected else df]. *)
Definition select_rows (column : Row -> option string) (selected : pyval) : M ref :=
  if truthy selected
  then getitem_mask df (fun r => cell_eq (column r) selected)
  else ret df.

Definition update_age_distribution (selected_gender : pyval) : M Figure :=
  filtered_df <- select_rows Gender selected_gender ;;
  rows <- records_of filtered_df ;;
  match rows with
  | [] => ret EmptyFigure
  | _ :: _ =>
      ret (Histogram "Age Distribution by Gender" "Age" 10
             (group_by Gender (fun r => option_map inject_Z (Age r)) rows))
  end.

Definition update_condition_distribution (selected_gender : pyval) : M Figure :=
  filtered_df <- select_rows Gender selected_gender ;;
  rows <- records_of filtered_df ;;
  ret (Pie "Medical Condition Distribution" "Medical Condition"
         (map MedicalCondition rows)).

(** [frame.groupby('YearMonth').size().reset_index(name='Count')]. *)
Definition groupby_YearMonth_size (r : ref) : M ref :=
  rows <- records_of r ;;
  new_frame (Trend (map (fun b => (YPeriod (fst b), snd b))
                        (groupby_size (map YearMonth rows)))).

(** [.astype(str)] on one cell of the YearMonth column. *)
Definition astype_str (c : YMCell) : YMCell :=
  match c with
  | YPeriod p => YStr (period_str p)
  | YStr s => YStr s
  end.

(** The label a chart axis shows for a cell. *)
Definition cell_label (c : YMCell) : string :=
  match c with
  | YPeriod p => period_str p
  | YStr s => s
  end.

Definition update_admission_trends (chart_type selected_condition : pyval) : M Figure :=
  filtered_df <- select_rows MedicalCondition selected_condition ;;
  trend_df <- groupby_YearMonth_size filtered_df ;;
  cells <- trend_of trend_df ;;
  _ <- setitem_YearMonth trend_df (map (fun c => astype_str (fst c)) cells) ;;
  shown <- trend_of trend_df ;;
  let points := map (fun c => (cell_label (fst c), snd c)) shown in
  if py_eq_str chart_type "line"
  then ret (Line "Admission Trends Over Time" "YearMonth" "Count" points)
  else ret (Bar "Admission Trends Over Time" "YearMonth" "Count" points).

(** The mask [frame['Billing Amount'] <= slider_value].  A missing cell
    compares false; a missing ceiling makes every cell compare false; a string
    ceiling against the float column raises. *)
Definition billing_le (c : Q) (r : Row) : bool :=
  match BillingAmount r with
  | Some b => Qle_bool b c
  | None => false
  end.

Definition le_mask (slider_value : pyval) : M (Row -> bool) :=
  match slider_value with
  | PNum c => ret (billing_le c)
  | PBool b => ret (billing_le (if b then 1 # 1 else 0 # 1))
  | PNone => ret (fun _ => false)
  | PStr _ => raise TypeError
  end.

Definition update_billing_distribution (selected_gender slider_value : pyval) : M Figure :=
  filtered_df <- select_rows Gender selected_gender ;;
  mask <- le_mask slider_value ;;
  filtered_df <- getitem_mask filtered_df mask ;;
  rows <- records_of filtered_df ;;
  ret (Histogram "Billing Amount Distribution" "Billing Amount" 10
         [("", map BillingAmount rows)]).

Definition update_insurance_comparison (selected_gender : pyval) : M Figure :=
  filtered_df <- select_rows Gender selected_gender ;;
  rows <- records_of filtered_df ;;
  ret (GroupedBar "Insurance Provider Billing Comparison" "Insurance Provider" "Billing Amount"
         (group_by MedicalCondition (fun r => (InsuranceProvider r, BillingAmount r)) rows)).

(** The rows of the frame that the filtering expression evaluates to, started
    on the freshly loaded table. *)
Definition selected_rows (table : list Row) (column : Row -> option string)
           (selected : pyval)
  : Result (list Row) :=
  fst ((filtered_df <- select_rows column selected ;; records_of filtered_df) (loaded table)).

(** What a callback returns, started on the freshly loaded table. *)
Definition returns {A : Type} (table : list Row) (callback : M A) : Result A :=
  fst (callback (loaded table)).

(** ** Binning, on the renderer's side *)

Fixpoint Qmin_list (x : Q) (xs : list Q) : Q :=
  match xs with
  | [] => x
  | y :: ys => Qmin_list (if Qle_bool y x then y else x) ys
  end.

Fixpoint Qmax_list (x : Q) (xs : list Q) : Q :=
  match xs with
  | [] => x
  | y :: ys => Qmax_list (if Qle_bool x y then y else x) ys
  end.

(** Modelled from the spec: the counting of values into bins happens in the
    plotting library, which is not part of the repository's source.  The spec
    describes it as [nbins] equal-width bins; they span the range of all
    values of the chart, the largest value falling in the last bin.  A missing
    cell is a value of no bin. *)
Definition bin_index (nbins : nat) (lo hi v : Q) : nat :=
  if Qeq_bool lo hi then O
  else Nat.min (nbins - 1)
         (Z.to_nat (Qfloor ((v - lo) * inject_Z (Z.of_nat nbins) / (hi - lo)))).

Definition count_in_bin (nbins : nat) (lo hi : Q) (b : nat) (xs : list (option Q)) : nat :=
  List.length (filter (fun v => Nat.eqb (bin_index nbins lo hi v) b) (present xs)).

(** Modelled from the spec: the height of each of the [nbins] bars of a
    histogram, the colour series stacked. *)
Definition histogram_bins (fig : Figure) : list nat :=
  match fig with
  | Histogram _ _ nbins traces =>
      match present (List.concat (map snd traces)) with
      | [] => repeat O nbins
      | v :: vs =>
          let lo := Qmin_list v vs in
          let hi := Qmax_list v vs in
          map (fun b => list_sum (map (fun tr => count_in_bin nbins lo hi b (snd tr)) traces))
              (seq 0 nbins)
      end
  | _ => []
  end.

(** ** The rows a selection stands for *)

(** The rows whose [column] equals the selected value. *)
Definition matching (column : Row -> option string) (selected : pyval) (table : list Row)
  : list Row :=
  filter (fun r => cell_eq (column r) selected) table.

(** What the filtering expression keeps: the matching rows under a truthy
    selection, every row otherwise. *)
Definition kept (column : Row -> option string) (selected : pyval) (table : list Row)
  : list Row :=
  if truthy selected then matching column selected table else table.

(** The filter contract read with "set" as "not None": a set selection keeps
    exactly the matching rows, the unset one keeps the table. *)
Definition filter_contract_not_none
  (table : list Row) (column : Row -> option string) (selected : pyval) : Prop :=
  (selected <> PNone -> selected_rows table column selected = Ok (matching column selected table))
  /\ (selected = PNone -> selected_rows table column selected = Ok table).

(** The months behind the bars or points of the Admission Trends chart. *)
Definition trend_buckets (table : list Row) (selected_condition : pyval) : list (period * nat) :=
  groupby_size (map YearMonth (kept MedicalCondition selected_condition table)).

Definition trend_points (buckets : list (period * nat)) : list (string * nat) :=
  map (fun b => (period_str (fst b), snd b)) buckets.

(** The chart the Admission Trends callback builds from its points. *)
Definition trend_chart (chart_type : pyval) (points : list (string * nat)) : Figure :=
  if py_eq_str chart_type "line"
  then Line "Admission Trends Over Time" "YearMonth" "Count" points
  else Bar "Admission Trends Over Time" "YearMonth" "Count" points.

(** The chart the Billing Distribution callback builds from the rows left. *)
Definition billing_chart (rows : list Row) : Figure :=
  Histogram "Billing Amount Distribution" "Billing Amount" 10
    [("", map BillingAmount rows)].

(** A chart that carries no data value at all. *)
Definition no_data (fig : Figure) : bool :=
  match fig with
  | EmptyFigure => true
  | Histogram _ _ _ traces => forallb (fun tr => match snd tr with [] => true | _ => false end) traces
  | Pie _ _ labels => match labels with [] => true | _ => false end
  | Line _ _ _ points | Bar _ _ _ points => match points with [] => true | _ => false end
  | GroupedBar _ _ _ traces => forallb (fun tr => match snd tr with [] => true | _ => false end) traces
  end.

(** The summary row shows the average as N/A. *)
Definition average_shown_as_NA (table : list Row) : Prop :=
  contains "N/A" (summary_billing_text table) = true.

(** How many values the series of a chart hold together. *)
Definition total_values {V : Type} (groups : list (string * list V)) : nat :=
  List.length (List.concat (map snd groups)).

(** ** A small dataset *)

(** Cells that are all present, for writing a series down. *)
Definition ages (l : list Z) : list (option Q) := map (fun a => Some (inject_Z a)) l.
Definition amounts (l : list Q) : list (option Q) := map Some l.

Definition sample_csv : list CsvRow :=
  [ csv_row 34 "M" "Asthma" "Aetna" "100" "2023-04-17";
    csv_row 58 "F" "Diabetes" "Cigna" "bad" "2023-02-03" ].

Definition sample_csv_wide : list CsvRow :=
  [ csv_row 34 "M" "Asthma" "Aetna" "1200.50" "2023-04-17";
    csv_row 58 "F" "Diabetes" "Cigna" "bad" "2023-02-03";
    csv_row 71 "F" "Asthma" "Aetna" "300" "2023-04-02";
    csv_row 19 "M" "Cancer" "Medicare" "4500" "2022-12-30";
    csv_row 45 "F" "Diabetes" "Cigna" "800.25" "" ].

Definition sample_csv_unbilled : list CsvRow :=
  [ csv_row 34 "M" "Asthma" "Aetna" "bad" "2023-04-17";
    csv_row 58 "F" "Diabetes" "Cigna" "" "2023-02-03" ].

Definition table_of (csv : list CsvRow) : list Row :=
  match load_data csv with
  | Ok table => table
  | Raise _ => []
  end.

Definition sample_table : list Row := Eval vm_compute in table_of sample_csv.
Definition sample_table_wide : list Row := Eval vm_compute in table_of sample_csv_wide.
Definition sample_table_unbilled : list Row := Eval vm_compute in table_of sample_csv_unbilled.

(** A table, not read from a file, one of whose Gender cells is the empty
    string. *)
Definition sample_table_blank_gender : list Row :=
  [ mkRow (Some 34) (Some "M") (Some "Asthma") (Some "Aetna") (Some (100 # 1))
          (Some (mkDate 2023 4 17)) (Some 639);
    mkRow (Some 58) (Some "") (Some "Diabetes") (Some "Cigna") (Some (250 # 1))
          (Some (mkDate 2023 2 3)) (Some 637) ].

(** A file in which the Gender cell of the second row and the Age cell of the
    third are empty. *)
Definition sample_csv_gaps : list CsvRow :=
  [ csv_row 34 "M" "Asthma" "Aetna" "100" "2023-04-17";
    mkCsvRow (Some 58) None (Some "Diabetes") (Some "Cigna") "250" "2023-02-03";
    mkCsvRow None (Some "F") None (Some "Aetna") "300" "2023-04-02" ].

Definition sample_table_gaps : list Row := Eval vm_compute in table_of sample_csv_gaps.



(** ** The controls of the layout *)

Definition mem (x : string) (l : list string) : bool := existsb (String.eqb x) l.

(** The distinct strings of a list, in order of first appearance. *)
Definition unique (l : list string) : list string :=
  fold_left (fun acc x => if mem x acc then acc else acc ++ [x]) l [].

(** Two cells are the same value: the same string, or both missing. *)
Definition same_cell (a b : option string) : bool :=
  match a, b with
  | Some x, Some y => String.eqb x y
  | None, None => true
  | _, _ => false
  end.

(** [Series.unique()]: the distinct values of a column, in order of first
    appearance; the missing value counts as one value. *)
Definition unique_cells (l : list (option string)) : list (option string) :=
  fold_left (fun acc x => if existsb (same_cell x) acc then acc else acc ++ [x]) l [].

(** [[{"label": v, "value": v} for v in values]]. *)
Definition dropdown_options (values : list (option string))
  : list (option string * option string) :=
  map (fun v => (v, v)) values.

Definition gender_options (table : list Row) : list (option string * option string) :=
  dropdown_options (unique_cells (map Gender table)).

Definition condition_options (table : list Row) : list (option string * option string) :=
  dropdown_options (unique_cells (map MedicalCondition table)).

(** [Series.min()] and [Series.max()]: over the cells that are not missing,
    NaN when there is none. *)
Definition series_min (cells : list (option Q)) : option Q :=
  match present cells with
  | [] => None
  | q :: qs => Some (Qmin_list q qs)
  end.

Definition series_max (cells : list (option Q)) : option Q :=
  match present cells with
  | [] => None
  | q :: qs => Some (Qmax_list q qs)
  end.

Record Slider : Type := mkSlider {
  slider_min : option Q;
  slider_max : option Q;
  slider_value : option Q;
  slider_step : Z
}.

(** [min], [max], [value] and [step] of the billing slider. *)
Definition billing_slider (table : list Row) : Slider :=
  {| slider_min := series_min (map BillingAmount table);
     slider_max := series_max (map BillingAmount table);
     slider_value := series_max (map BillingAmount table);
     slider_step := 100 |}.

(** The initial value of the gender dropdown. *)
Definition gender_filter_value : pyval := PNone.

Fixpoint insert_sorted (x : Q) (l : list Q) : list Q :=
  match l with
  | [] => [x]
  | y :: rest => if Qle_bool x y then x :: y :: rest else y :: insert_sorted x rest
  end.

Definition sort_values (l : list Q) : list Q := fold_right insert_sorted [] l.

(** What a float64 computation can return. *)
Inductive float_value : Type :=
| Finite (q : Q)
| Infinite
| NotANumber.

(** [Series.quantile(level)]: NaN when no cell is present, else a value
    interpolated between the sorted cells that are present.  pandas computes
    the interpolation in float64; it is the parameter [interpolate], from the
    level and the sorted values to the result. *)
Definition quantile (interpolate : Q -> list Q -> float_value)
           (level : Q) (cells : list (option Q)) : float_value :=
  match sort_values (present cells) with
  | [] => NotANumber
  | v :: vs => interpolate level (v :: vs)
  end.

(** The interpolation carried out exactly: the value at position
    [level * (n - 1)], between its two neighbours. *)
Definition linear_interpolation (level : Q) (sorted : list Q) : float_value :=
  match sorted with
  | [] => NotANumber
  | v :: vs =>
      let pos := (level * inject_Z (Z.of_nat (List.length vs)))%Q in
      let i := Z.to_nat (Qfloor pos) in
      let g := (pos - inject_Z (Qfloor pos))%Q in
      let lo := nth i (v :: vs) v in
      let hi := nth (S i) (v :: vs) lo in
      Finite (Qred (lo + (hi - lo) * g))
  end.

(** [int(x)] on a float: the integer part, towards zero; it raises on NaN and
    on an infinity. *)
Definition py_int (x : float_value) : Result Z :=
  match x with
  | Finite q => Ok (Z.quot (Qnum q) (Zpos (Qden q)))
  | Infinite => Raise OverflowError
  | NotANumber => Raise ValueError
  end.

(** The format specification [,] on an integer. *)
Definition format_comma (k : Z) : string :=
  String.append (if k <? 0 then "-" else "") (group_thousands (decimal (Z.abs k))).

(** [d[k] = v] on a dict kept in insertion order. *)
Fixpoint dict_set (k : Z) (v : string) (d : list (Z * string)) : list (Z * string) :=
  match d with
  | [] => [(k, v)]
  | (k', v') :: rest =>
      if k =? k' then (k', v) :: rest else (k', v') :: dict_set k v rest
  end.

Definition mark_levels : list Q := [0 # 1; 1 # 4; 1 # 2; 3 # 4; 1 # 1]%Q.

(** One turn of the dict comprehension of the slider marks. *)
Definition add_mark (interpolate : Q -> list Q -> float_value) (cells : list (option Q))
           (acc : Result (list (Z * string))) (level : Q) : Result (list (Z * string)) :=
  match acc with
  | Raise e => Raise e
  | Ok marks =>
      match py_int (quantile interpolate level cells) with
      | Raise e => Raise e
      | Ok k => Ok (dict_set k (String.append "$" (format_comma k)) marks)
      end
  end.

(** [{int(value): f'${int(value):,}' for value in
    df['Billing Amount'].quantile([0, 0.25, 0.5, 0.75, 1]).values}]. *)
Definition slider_marks (interpolate : Q -> list Q -> float_value) (table : list Row)
  : Result (list (Z * string)) :=
  fold_left (add_mark interpolate (map BillingAmount table)) mark_levels (Ok []).

(** A mark is well made: it stands at the integer part of the quantile
    computed at one of the levels asked for, and its label is that integer
    with a dollar sign and thousands separators. *)
Definition well_made (interpolate : Q -> list Q -> float_value) (cells : list (option Q))
           (levels : list Q) (e : Z * string) : Prop :=
  snd e = String.append "$" (format_comma (fst e))
  /\ exists level value,
       In level levels
       /\ quantile interpolate level cells = Finite value
       /\ py_int (Finite value) = Ok (fst e).

(** ** Callback requests *)

(** One request to the server: which callback, with which control values, in
    the order of the [Input]s of its decorator. *)
Inductive Call : Type :=
| AgeDistribution (selected_gender : pyval)
| ConditionDistribution (selected_gender : pyval)
| AdmissionTrends (chart_type selected_condition : pyval)
| BillingDistribution (selected_gender slider_value : pyval)
| InsuranceComparison (selected_gender : pyval).

Definition dispatch (c : Call) : M Figure :=
  match c with
  | AgeDistribution g => update_age_distribution g
  | ConditionDistribution g => update_condition_distribution g
  | AdmissionTrends ct sc => update_admission_trends ct sc
  | BillingDistribution g sv => update_billing_distribution g sv
  | InsuranceComparison g => update_insurance_comparison g
  end.

(** The heap after a sequence of requests, served one after the other. *)
Definition heap_after (calls : list Call) (h : Heap) : Heap :=
  fold_left (fun heap c => snd (dispatch c heap)) calls h.

(** ** Counting rows *)

Definition in_month (k : period) (r : Row) : bool :=
  match YearMonth r with
  | Some p => p =? k
  | None => false
  end.

Definition dated (r : Row) : bool :=
  match YearMonth r with
  | Some _ => true
  | None => false
  end.

Definition billed (r : Row) : bool :=
  match BillingAmount r with
  | Some _ => true
  | None => false
  end.

(** The values of the rows whose key is the string [k], in table order. *)
Definition series_of {V : Type} (key : Row -> option string) (val : Row -> V)
           (rows : list Row) (k : string) : list V :=
  map val (filter (fun r => cell_eq (key r) (PStr k)) rows).


(** A row that has a key. *)
Definition keyed (key : Row -> option string) (r : Row) : bool :=
  match key r with
  | Some _ => true
  | None => false
  end.


(** The rows counted under month [k] in a list of buckets. *)
Definition counted (k : period) (buckets : list (period * nat)) : nat :=
  list_sum (map snd (filter (fun b => fst b =? k) buckets)).

(** * Properties *)

(** ** The definitions at work on concrete inputs *)

Example to_numeric_100 : to_numeric "100" = Some (100 # 1).
Proof. reflexivity. Qed.
Example to_numeric_bad : to_numeric "bad" = None.
Proof. reflexivity. Qed.
Example to_numeric_frac : to_numeric "-12.50" = Some (-25 # 2).
Proof. reflexivity. Qed.
Example to_datetime_iso : to_datetime "2023-04-17" = Ok (Some (mkDate 2023 4 17)).
Proof. reflexivity. Qed.
Example to_datetime_junk : to_datetime "not a date" = Raise ValueError.
Proof. reflexivity. Qed.
Example format_million : format_comma_2f (Some (2469135 # 2)) = "1,234,567.50".
Proof. reflexivity. Qed.
Example format_tie : format_comma_2f (Some (1 # 8)) = "0.12".
Proof. reflexivity. Qed.
Example format_negative : format_comma_2f (Some (-7 # 2)) = "-3.50".
Proof. reflexivity. Qed.
Example period_str_2023_04 : period_str (to_period (mkDate 2023 4 17)) = "2023-04".
Proof. reflexivity. Qed.
Example period_str_1969_12 : period_str (-1) = "1969-12".
Proof. reflexivity. Qed.

Example load_aborts_on_bad_date :
  load_data [csv_row 34 "M" "Asthma" "Aetna" "100" "not a date"] = Raise ValueError.
Proof. reflexivity. Qed.
Example summary_row_of_sample :
  summary_records_text sample_table_wide = "Total Patient Records: 5"
  /\ summary_billing_text sample_table_wide = "Average Billing Amount: $1,700.19".
Proof. split; reflexivity. Qed.
Example age_distribution_all :
  returns sample_table_wide (update_age_distribution PNone)
  = Ok (Histogram "Age Distribution by Gender" "Age" 10
          [("M", ages [34; 19]); ("F", ages [58; 71; 45])]).
Proof. reflexivity. Qed.
Example age_distribution_bins :
  histogram_bins (Histogram "Age Distribution by Gender" "Age" 10
          [("M", ages [34; 19]); ("F", ages [58; 71; 45])])
  = [1; 0; 1; 0; 0; 1; 0; 1; 0; 1]%nat.
Proof. reflexivity. Qed.
Example age_distribution_unknown_gender :
  returns sample_table_wide (update_age_distribution (PStr "X")) = Ok EmptyFigure.
Proof. reflexivity. Qed.
Example admission_trends_line :
  returns sample_table_wide (update_admission_trends (PStr "line") PNone)
  = Ok (Line "Admission Trends Over Time" "YearMonth" "Count"
          [("2022-12", 1%nat); ("2023-02", 1%nat); ("2023-04", 2%nat)]).
Proof. reflexivity. Qed.
Example billing_distribution_string_ceiling :
  returns sample_table_wide (update_billing_distribution PNone (PStr "high")) = Raise TypeError.
Proof. reflexivity. Qed.
Example billing_distribution_under_1000 :
  returns sample_table_wide (update_billing_distribution PNone (PNum (1000 # 1)))
  = Ok (Histogram "Billing Amount Distribution" "Billing Amount" 10
          [("", amounts [300 # 1; 3201 # 4])]).
Proof. reflexivity. Qed.
(** With the empty string selected, the row whose Gender is empty is not
    singled out: every row is kept. *)
Example blank_gender_row_not_singled_out :
  selected_rows sample_table_blank_gender Gender (PStr "") = Ok sample_table_blank_gender
  /\ List.length (matching Gender (PStr "") sample_table_blank_gender) = 1%nat
  /\ List.length sample_table_blank_gender = 2%nat.
Proof. repeat split. Qed.

(** ** Heap primitives on the most recent frame *)

Section FreshFrame.

Variable h : Heap.

Lemma nth_error_fresh (f : Frame) :
  nth_error (h ++ [f]) (List.length h) = Some f.
Proof.
  induction h as [ | x h' IH]; simpl; auto.
Qed.

Lemma store_fresh (f g : Frame) :
  store (List.length h) g (h ++ [f]) = h ++ [g].
Proof.
  induction h as [ | x h' IH]; simpl; [reflexivity | now rewrite IH].
Qed.

Lemma records_of_fresh (rows : list Row) :
  records_of (List.length h) (h ++ [Records rows]) = (Ok rows, h ++ [Records rows]).
Proof.
  unfold records_of. now rewrite nth_error_fresh.
Qed.

Lemma trend_of_fresh (rows : list (YMCell * nat)) :
  trend_of (List.length h) (h ++ [Trend rows]) = (Ok rows, h ++ [Trend rows]).
Proof.
  unfold trend_of. now rewrite nth_error_fresh.
Qed.

Lemma setitem_YearMonth_fresh (column : list YMCell) (rows : list (YMCell * nat)) :
  setitem_YearMonth (List.length h) column (h ++ [Trend rows]) =
    (Ok tt, h ++ [Trend (combine column (map snd rows))]).
Proof.
  unfold setitem_YearMonth, bind. rewrite trend_of_fresh. now rewrite store_fresh.
Qed.

End FreshFrame.

(** ** One run of each callback *)

(** Runs the first pending step of a computation with the equation [H] that
    says what the step does. *)
Ltac step H := unfold bind at 1; rewrite H.

Lemma relabel_buckets (buckets : list (period * nat)) :
  let cells := map (fun b => (YPeriod (fst b), snd b)) buckets in
  combine (map (fun c => astype_str (fst c)) cells) (map snd cells)
  = map (fun b => (YStr (period_str (fst b)), snd b)) buckets.
Proof.
  induction buckets as [ | [k n] buckets IH]; simpl in *; [reflexivity | now rewrite IH].
Qed.

Lemma labels_of_relabelled (buckets : list (period * nat)) :
  map (fun c => (cell_label (fst c), snd c))
      (map (fun b => (YStr (period_str (fst b)), snd b)) buckets)
  = trend_points buckets.
Proof.
  unfold trend_points. rewrite map_map. reflexivity.
Qed.

Section Runs.

(** The heap a callback starts on: the loaded table at the address of [df],
    followed by whatever earlier callbacks left behind. *)
Variable table : list Row.
Variable rest : Heap.

(** The filtering expression either aliases the global frame or allocates
    one frame with the matching rows behind every frame already there. *)
Lemma select_rows_run (column : Row -> option string) (selected : pyval) :
  select_rows column selected (Records table :: rest) =
    if truthy selected
    then (Ok (S (List.length rest)),
          Records table :: rest ++ [Records (matching column selected table)])
    else (Ok df, Records table :: rest).
Proof.
  unfold select_rows. destruct (truthy selected); reflexivity.
Qed.

(** After the filtering expression the global frame is still the first
    frame, and the frame the expression evaluates to holds the kept rows. *)
Lemma select_rows_shape (column : Row -> option string) (selected : pyval) :
  exists (r : ref) (rest' : Heap),
    select_rows column selected (Records table :: rest) = (Ok r, Records table :: rest')
    /\ records_of r (Records table :: rest')
       = (Ok (kept column selected table), Records table :: rest').
Proof.
  rewrite select_rows_run. unfold kept.
  destruct (truthy selected).
  - exists (S (List.length rest)), (rest ++ [Records (matching column selected table)]).
    split; [reflexivity | ].
    apply (records_of_fresh (Records table :: rest) (matching column selected table)).
  - exists df, rest. split; reflexivity.
Qed.

Lemma update_age_distribution_run (selected_gender : pyval) :
  exists rest' : Heap,
    update_age_distribution selected_gender (Records table :: rest)
    = (Ok (match kept Gender selected_gender table with
           | [] => EmptyFigure
           | _ :: _ =>
               Histogram "Age Distribution by Gender" "Age" 10
                 (group_by Gender (fun r => option_map inject_Z (Age r))
                    (kept Gender selected_gender table))
           end),
       Records table :: rest').
Proof.
  destruct (select_rows_shape Gender selected_gender) as (r & rest1 & Hsel & Hread).
  exists rest1. unfold update_age_distribution.
  step Hsel. step Hread.
  destruct (kept Gender selected_gender table); reflexivity.
Qed.

Lemma update_condition_distribution_run (selected_gender : pyval) :
  exists rest' : Heap,
    update_condition_distribution selected_gender (Records table :: rest)
    = (Ok (Pie "Medical Condition Distribution" "Medical Condition"
             (map MedicalCondition (kept Gender selected_gender table))),
       Records table :: rest').
Proof.
  destruct (select_rows_shape Gender selected_gender) as (r & rest1 & Hsel & Hread).
  exists rest1. unfold update_condition_distribution.
  step Hsel. step Hread. reflexivity.
Qed.

Lemma update_admission_trends_run (chart_type selected_condition : pyval) :
  exists rest' : Heap,
    update_admission_trends chart_type selected_condition (Records table :: rest)
    = (Ok (trend_chart chart_type (trend_points (trend_buckets table selected_condition))),
       Records table :: rest').
Proof.
  destruct (select_rows_shape MedicalCondition selected_condition)
    as (r & rest1 & Hsel & Hread).
  set (buckets := trend_buckets table selected_condition).
  exists (rest1 ++ [Trend (map (fun b => (YStr (period_str (fst b)), snd b)) buckets)]).
  unfold update_admission_trends, groupby_YearMonth_size.
  step Hsel. unfold bind at 1. step Hread.
  unfold new_frame.
  fold (trend_buckets table selected_condition). fold buckets.
  step (trend_of_fresh (Records table :: rest1)).
  step (setitem_YearMonth_fresh (Records table :: rest1)).
  rewrite relabel_buckets.
  step (trend_of_fresh (Records table :: rest1)).
  rewrite labels_of_relabelled.
  unfold trend_chart, ret.
  destruct (py_eq_str chart_type "line"); reflexivity.
Qed.

(** The Billing Distribution callback, once the comparison with the slider
    value has produced a mask. *)
Lemma update_billing_distribution_masked (selected_gender slider_value : pyval)
      (mask : Row -> bool) :
  (forall h, le_mask slider_value h = (Ok mask, h)) ->
  exists rest' : Heap,
    update_billing_distribution selected_gender slider_value (Records table :: rest)
    = (Ok (billing_chart (filter mask (kept Gender selected_gender table))),
       Records table :: rest').
Proof.
  intro Hmask.
  destruct (select_rows_shape Gender selected_gender) as (r & rest1 & Hsel & Hread).
  exists (rest1 ++ [Records (filter mask (kept Gender selected_gender table))]).
  unfold update_billing_distribution, getitem_mask.
  step Hsel. step Hmask. unfold bind at 1. step Hread.
  unfold new_frame.
  step (records_of_fresh (Records table :: rest1)).
  reflexivity.
Qed.

Lemma update_billing_distribution_run (selected_gender : pyval) (c : Q) :
  exists rest' : Heap,
    update_billing_distribution selected_gender (PNum c) (Records table :: rest)
    = (Ok (billing_chart (filter (billing_le c) (kept Gender selected_gender table))),
       Records table :: rest').
Proof.
  apply update_billing_distribution_masked. reflexivity.
Qed.

(** Whatever the slider sends, also a string that makes the comparison
    raise, the global frame stays first on the heap. *)
Lemma update_billing_distribution_keeps_table (selected_gender slider_value : pyval) :
  exists (res : Result Figure) (rest' : Heap),
    update_billing_distribution selected_gender slider_value (Records table :: rest)
    = (res, Records table :: rest').
Proof.
  destruct slider_value as [ | b | c | s].
  - destruct (update_billing_distribution_masked selected_gender PNone (fun _ => false))
      as [rest' H]; [reflexivity | eauto].
  - destruct (update_billing_distribution_masked selected_gender (PBool b)
                (billing_le (if b then 1 # 1 else 0 # 1))) as [rest' H];
      [reflexivity | eauto].
  - destruct (update_billing_distribution_run selected_gender c) as [rest' H].
    eauto.
  - destruct (select_rows_shape Gender selected_gender) as (r & rest1 & Hsel & Hread).
    exists (Raise TypeError), rest1.
    unfold update_billing_distribution. step Hsel. reflexivity.
Qed.

Lemma update_insurance_comparison_run (selected_gender : pyval) :
  exists rest' : Heap,
    update_insurance_comparison selected_gender (Records table :: rest)
    = (Ok (GroupedBar "Insurance Provider Billing Comparison" "Insurance Provider"
             "Billing Amount"
             (group_by MedicalCondition (fun r => (InsuranceProvider r, BillingAmount r))
                (kept Gender selected_gender table))),
       Records table :: rest').
Proof.
  destruct (select_rows_shape Gender selected_gender) as (r & rest1 & Hsel & Hread).
  exists rest1. unfold update_insurance_comparison.
  step Hsel. step Hread. reflexivity.
Qed.

End Runs.

(** ** The filtering expression *)

Lemma cell_eq_spec (cell : option string) (v : pyval) :
  cell_eq cell v = true <-> exists s, cell = Some s /\ v = PStr s.
Proof.
  destruct cell as [c | ]; destruct v as [ | b | q | s]; simpl; split; intro H;
    try discriminate; try (destruct H as (s' & H1 & H2); discriminate).
  - apply String.eqb_eq in H. subst. now exists s.
  - destruct H as (s' & H1 & H2). injection H1 as ->. injection H2 as ->.
    apply String.eqb_refl.
Qed.

Lemma selected_rows_kept (table : list Row) (column : Row -> option string) (selected : pyval) :
  selected_rows table column selected = Ok (kept column selected table).
Proof.
  unfold selected_rows, loaded.
  destruct (select_rows_shape table [] column selected) as (r & rest1 & Hsel & Hread).
  step Hsel. now rewrite Hread.
Qed.

(** C1, as the spec words it, fails for the empty string: it is a set
    selection, yet the expression keeps a row whose Gender is not empty. *)
Lemma filter_contract_fails_on_empty_string :
  ~ filter_contract_not_none sample_table Gender (PStr "").
Proof.
  intros [Hset _].
  assert (Hne : PStr "" <> PNone) by discriminate.
  specialize (Hset Hne). vm_compute in Hset. discriminate Hset.
Qed.

(** C1 (amended): for every table, column and selection, the filtering
    expression keeps exactly the rows whose cell equals the selection when the
    selection is truthy, and the whole table, unchanged, when it is None or
    otherwise falsy; a cell equals the selection only when the cell is present
    and the selection is that very string. *)
Theorem select_rows_keeps_matching_or_all :
  forall (table : list Row) (column : Row -> option string) (selected : pyval),
    selected_rows table column selected =
      Ok (if truthy selected
          then filter (fun r => cell_eq (column r) selected) table
          else table)
    /\ (forall r, cell_eq (column r) selected = true
                  <-> exists s, column r = Some s /\ selected = PStr s)
    /\ selected_rows table column PNone = Ok table.
Proof.
  intros table column selected. split; [ | split].
  - apply selected_rows_kept.
  - intro r. apply cell_eq_spec.
  - apply selected_rows_kept.
Qed.

(** C9: the empty string selects nothing out: the filtering expression hands
    back the global frame itself, and each of the four gender-filtered views
    returns what it returns for None, whatever the Gender cells are. *)
Theorem empty_string_gender_is_no_filter :
  forall (table : list Row) (slider_value : pyval),
    select_rows Gender (PStr "") (loaded table) = (Ok df, loaded table)
    /\ selected_rows table Gender (PStr "") = Ok table
    /\ returns table (update_age_distribution (PStr ""))
       = returns table (update_age_distribution PNone)
    /\ returns table (update_condition_distribution (PStr ""))
       = returns table (update_condition_distribution PNone)
    /\ returns table (update_billing_distribution (PStr "") slider_value)
       = returns table (update_billing_distribution PNone slider_value)
    /\ returns table (update_insurance_comparison (PStr ""))
       = returns table (update_insurance_comparison PNone).
Proof.
  intros table slider_value.
  split; [apply (select_rows_run table [] Gender (PStr "")) | ].
  split; [apply (selected_rows_kept table Gender (PStr "")) | ].
  repeat split.
Qed.

(** ** The table is never written *)

(** C7: whatever frames are already on the heap and whatever values the
    controls send, after each of the five callbacks the global frame still
    holds the loaded table, also when the callback raises. *)
Theorem callbacks_leave_table_untouched :
  forall (table : list Row) (rest : Heap)
         (selected_gender selected_condition chart_type slider_value : pyval),
    nth_error (Records table :: rest) df = Some (Records table)
    /\ nth_error (snd (update_age_distribution selected_gender (Records table :: rest))) df
       = Some (Records table)
    /\ nth_error (snd (update_condition_distribution selected_gender (Records table :: rest))) df
       = Some (Records table)
    /\ nth_error (snd (update_admission_trends chart_type selected_condition
                         (Records table :: rest))) df
       = Some (Records table)
    /\ nth_error (snd (update_billing_distribution selected_gender slider_value
                         (Records table :: rest))) df
       = Some (Records table)
    /\ nth_error (snd (update_insurance_comparison selected_gender (Records table :: rest))) df
       = Some (Records table).
Proof.
  intros table rest selected_gender selected_condition chart_type slider_value.
  split; [reflexivity | ].
  split.
  { destruct (update_age_distribution_run table rest selected_gender) as [rest' H].
    now rewrite H. }
  split.
  { destruct (update_condition_distribution_run table rest selected_gender) as [rest' H].
    now rewrite H. }
  split.
  { destruct (update_admission_trends_run table rest chart_type selected_condition)
      as [rest' H].
    now rewrite H. }
  split.
  { destruct (update_billing_distribution_keeps_table table rest selected_gender slider_value)
      as (res & rest' & H).
    now rewrite H. }
  destruct (update_insurance_comparison_run table rest selected_gender) as [rest' H].
  now rewrite H.
Qed.

(** ** Month buckets come out in increasing order *)

Lemma bump_above (a k : period) (buckets : list (period * nat)) :
  a < k ->
  Forall (Z.lt a) (map fst buckets) ->
  Forall (Z.lt a) (map fst (bump k buckets)).
Proof.
  intros Hak. induction buckets as [ | [k' n] buckets IH]; simpl; intro Hall.
  - constructor; [exact Hak | constructor].
  - inversion Hall as [ | x l Hx Hl]; subst.
    destruct (k <? k').
    + constructor; [exact Hak | exact Hall].
    + destruct (k =? k'); simpl; constructor; auto.
Qed.

Lemma bump_sorted (k : period) (buckets : list (period * nat)) :
  StronglySorted Z.lt (map fst buckets) ->
  StronglySorted Z.lt (map fst (bump k buckets)).
Proof.
  induction buckets as [ | [k' n] buckets IH]; simpl; intro Hs.
  - constructor; constructor.
  - inversion Hs as [ | x l Hl Hx]; subst.
    destruct (k <? k') eqn:Hlt.
    + apply Z.ltb_lt in Hlt. simpl. constructor; [exact Hs | ].
      constructor; [exact Hlt | ].
      eapply Forall_impl; [ | exact Hx]. intros z Hz. simpl in Hz. lia.
    + apply Z.ltb_ge in Hlt.
      destruct (k =? k') eqn:Heq.
      * simpl. exact Hs.
      * apply Z.eqb_neq in Heq. simpl. constructor; [auto | ].
        apply bump_above; [lia | exact Hx].
Qed.

Lemma groupby_size_sorted_from (keys : list (option period)) (acc : list (period * nat)) :
  StronglySorted Z.lt (map fst acc) ->
  StronglySorted Z.lt
    (map fst (fold_left (fun a k => match k with Some p => bump p a | None => a end) keys acc)).
Proof.
  revert acc. induction keys as [ | [p | ] keys IH]; simpl; intros acc Hs.
  - exact Hs.
  - apply IH. now apply bump_sorted.
  - now apply IH.
Qed.

Lemma groupby_size_sorted (keys : list (option period)) :
  StronglySorted Z.lt (map fst (groupby_size keys)).
Proof.
  apply groupby_size_sorted_from. constructor.
Qed.

(** C3: for every table, chart type and selected condition, the Admission
    Trends chart shows the month buckets of the kept rows in output order, the
    label at each position being the text of the month at that position, and
    those months are strictly increasing: each is later than every one before
    it. *)
Theorem admission_trends_months_strictly_increase :
  forall (table : list Row) (chart_type selected_condition : pyval),
    returns table (update_admission_trends chart_type selected_condition)
    = Ok (trend_chart chart_type (trend_points (trend_buckets table selected_condition)))
    /\ map fst (trend_points (trend_buckets table selected_condition))
       = map period_str (map fst (trend_buckets table selected_condition))
    /\ StronglySorted Z.lt (map fst (trend_buckets table selected_condition)).
Proof.
  intros table chart_type selected_condition. split; [ | split].
  - unfold returns, loaded.
    destruct (update_admission_trends_run table [] chart_type selected_condition)
      as [rest' Hrun].
    now rewrite Hrun.
  - unfold trend_points. now rewrite !map_map.
  - apply groupby_size_sorted.
Qed.

(** C10: for every chart-type value other than the string line, None and
    unknown strings included, the Admission Trends callback returns, without
    raising, a bar chart. *)
Theorem admission_trends_defaults_to_bar :
  forall (table : list Row) (chart_type selected_condition : pyval),
    chart_type <> PStr "line" ->
    returns table (update_admission_trends chart_type selected_condition)
    = Ok (Bar "Admission Trends Over Time" "YearMonth" "Count"
            (trend_points (trend_buckets table selected_condition))).
Proof.
  intros table chart_type selected_condition Hne.
  unfold returns, loaded.
  destruct (update_admission_trends_run table [] chart_type selected_condition)
    as [rest' Hrun].
  rewrite Hrun. simpl. unfold trend_chart.
  destruct chart_type as [ | b | q | s]; simpl; try reflexivity.
  destruct (String.eqb s "line") eqn:E; [ | reflexivity].
  apply String.eqb_eq in E. subst. now contradiction Hne.
Qed.

Lemma admission_trends_defaults_to_bar_witness :
  PNone <> PStr "line"
  /\ returns sample_table_wide (update_admission_trends PNone (PStr "Asthma"))
     = Ok (Bar "Admission Trends Over Time" "YearMonth" "Count" [("2023-04", 2%nat)]).
Proof.
  split; [discriminate | ].
  apply (admission_trends_defaults_to_bar sample_table_wide PNone (PStr "Asthma")).
  discriminate.
Defined.

(** ** The billing ceiling *)

Lemma filter_all (A : Type) (p : A -> bool) (l : list A) :
  (forall x, In x l -> p x = true) -> filter p l = l.
Proof.
  induction l as [ | a l IH]; simpl; intro H; [reflexivity | ].
  rewrite (H a (or_introl eq_refl)). f_equal. apply IH. auto.
Qed.

Lemma filter_none (A : Type) (p : A -> bool) (l : list A) :
  (forall x, In x l -> p x = false) -> filter p l = [].
Proof.
  induction l as [ | a l IH]; simpl; intro H; [reflexivity | ].
  rewrite (H a (or_introl eq_refl)). apply IH. auto.
Qed.

Lemma filter_twice (A : Type) (p : A -> bool) (l : list A) :
  filter p (filter p l) = filter p l.
Proof.
  apply filter_all. intros x Hx. apply filter_In in Hx. tauto.
Qed.

Lemma kept_of_kept_subset (column : Row -> option string) (selected : pyval)
      (p : Row -> bool) (table : list Row) :
  kept column selected (filter p (kept column selected table))
  = filter p (kept column selected table).
Proof.
  unfold kept. destruct (truthy selected); [ | reflexivity].
  unfold matching. apply filter_all. intros x Hx.
  apply filter_In in Hx. destruct Hx as [Hx _].
  apply filter_In in Hx. tauto.
Qed.

Lemma billing_le_above (c : Q) (r : Row) :
  (forall b, BillingAmount r = Some b -> (c < b)%Q) -> billing_le c r = false.
Proof.
  unfold billing_le. intro H. destruct (BillingAmount r) as [b | ]; [ | reflexivity].
  destruct (Qle_bool b c) eqn:E; [ | reflexivity].
  apply Qle_bool_iff in E. specialize (H b eq_refl).
  exfalso. exact (Qlt_not_le _ _ H E).
Qed.

(** C4: when the ceiling lies below every Billing Amount present among the
    rows the gender selection keeps, the Billing Distribution callback does
    not raise: it returns the histogram chart with a single series holding no
    value. *)
Theorem billing_distribution_below_minimum_is_empty_chart :
  forall (table : list Row) (selected_gender : pyval) (ceiling : Q),
    (forall r b, In r (kept Gender selected_gender table) ->
                 BillingAmount r = Some b -> (ceiling < b)%Q) ->
    returns table (update_billing_distribution selected_gender (PNum ceiling))
    = Ok (Histogram "Billing Amount Distribution" "Billing Amount" 10 [("", [])])
    /\ no_data (Histogram "Billing Amount Distribution" "Billing Amount" 10 [("", [])]) = true.
Proof.
  intros table selected_gender ceiling Hbelow. split; [ | reflexivity].
  unfold returns, loaded.
  destruct (update_billing_distribution_run table [] selected_gender ceiling) as [rest' Hrun].
  rewrite Hrun. simpl. unfold billing_chart.
  rewrite filter_none; [reflexivity | ].
  intros r Hr. apply billing_le_above. intros b Hb. exact (Hbelow r b Hr Hb).
Qed.

Lemma billing_distribution_below_minimum_is_empty_chart_witness :
  (forall r b, In r (kept Gender (PStr "F") sample_table_wide) ->
               BillingAmount r = Some b -> (10 # 1 < b)%Q)
  /\ returns sample_table_wide (update_billing_distribution (PStr "F") (PNum (10 # 1)))
     = Ok (Histogram "Billing Amount Distribution" "Billing Amount" 10 [("", [])]).
Proof.
  assert (Hbelow : forall r b, In r (kept Gender (PStr "F") sample_table_wide) ->
                               BillingAmount r = Some b -> (10 # 1 < b)%Q).
  { intros r b Hr Hb. vm_compute in Hr.
    destruct Hr as [Hr | [Hr | [Hr | []]]]; subst r; simpl in Hb;
      try discriminate; injection Hb as <-; reflexivity. }
  split; [exact Hbelow | ].
  apply (billing_distribution_below_minimum_is_empty_chart
           sample_table_wide (PStr "F") (10 # 1) Hbelow).
Defined.

(** C8: filtering by the same ceiling a second time changes nothing: the rows
    left after the gender selection and the ceiling are left as they are by
    the ceiling filter, and the Billing Distribution callback run on those
    rows as its table returns the chart it returns on the original table. *)
Theorem billing_distribution_refilter_idempotent :
  forall (table : list Row) (selected_gender : pyval) (ceiling : Q),
    let once := filter (billing_le ceiling) (kept Gender selected_gender table) in
    filter (billing_le ceiling) once = once
    /\ returns table (update_billing_distribution selected_gender (PNum ceiling))
       = Ok (billing_chart once)
    /\ billing_chart (filter (billing_le ceiling) once) = billing_chart once
    /\ returns once (update_billing_distribution selected_gender (PNum ceiling))
       = returns table (update_billing_distribution selected_gender (PNum ceiling)).
Proof.
  intros table selected_gender ceiling once.
  assert (Htwice : filter (billing_le ceiling) once = once) by apply filter_twice.
  assert (Hrun : forall t,
             returns t (update_billing_distribution selected_gender (PNum ceiling))
             = Ok (billing_chart (filter (billing_le ceiling) (kept Gender selected_gender t)))).
  { intro t. unfold returns, loaded.
    destruct (update_billing_distribution_run t [] selected_gender ceiling) as [rest' H].
    now rewrite H. }
  split; [exact Htwice | ].
  split; [apply Hrun | ].
  split; [now rewrite Htwice | ].
  rewrite !Hrun. unfold once at 1.
  rewrite kept_of_kept_subset. fold once. now rewrite Htwice.
Qed.

(** ** Summary statistics *)

(** C2: a two-row file whose first row is M with billing text 100 and whose
    second row is F with the unreadable billing text bad loads into two rows,
    the second with a missing amount; the average billing is 100, the missing
    amount being left out rather than counted as zero, and the record count
    is 2. *)
Theorem summary_of_one_good_one_bad_billing :
  forall (r1 r2 : CsvRow) (table : list Row),
    csv_Gender r1 = Some "M" -> csv_BillingAmount r1 = "100" ->
    csv_Gender r2 = Some "F" -> csv_BillingAmount r2 = "bad" ->
    load_data [r1; r2] = Ok table ->
    map Gender table = [Some "M"; Some "F"]
    /\ map BillingAmount table = [Some (100 # 1); None]
    /\ avg_billing table = Some (100 # 1)
    /\ num_records table = 2%nat.
Proof.
  intros r1 r2 table G1 B1 G2 B2 Hload.
  simpl in Hload. unfold load_row in Hload.
  destruct (to_datetime (csv_DateOfAdmission r1)) as [d1 | e1]; [ | discriminate].
  destruct (to_datetime (csv_DateOfAdmission r2)) as [d2 | e2]; [ | discriminate].
  injection Hload as <-.
  unfold avg_billing, num_records. simpl.
  rewrite G1, G2, B1, B2. repeat split.
Qed.

Lemma summary_of_one_good_one_bad_billing_witness :
  load_data sample_csv = Ok sample_table
  /\ avg_billing sample_table = Some (100 # 1)
  /\ num_records sample_table = 2%nat.
Proof.
  split; [reflexivity | ].
  apply (summary_of_one_good_one_bad_billing
           (csv_row 34 "M" "Asthma" "Aetna" "100" "2023-04-17")
           (csv_row 58 "F" "Diabetes" "Cigna" "bad" "2023-02-03")
           sample_table); reflexivity.
Defined.

Lemma present_all_missing (cells : list (option Q)) :
  (forall c, In c cells -> c = None) -> present cells = [].
Proof.
  induction cells as [ | [q | ] cells IH]; simpl; intro H.
  - reflexivity.
  - discriminate (H (Some q) (or_introl eq_refl)).
  - apply IH. auto.
Qed.

(** C5, as the spec words it, fails: with every amount missing the text of the
    summary row holds no N/A. *)
Lemma unbilled_average_is_not_shown_as_NA :
  (forall r, In r sample_table_unbilled -> BillingAmount r = None)
  /\ ~ average_shown_as_NA sample_table_unbilled.
Proof.
  split.
  - intros r Hr. vm_compute in Hr. destruct Hr as [Hr | [Hr | []]]; subst r; reflexivity.
  - unfold average_shown_as_NA. vm_compute. discriminate.
Qed.

(** C5 (amended): when every Billing Amount of the table is missing, the
    average is undefined and formatting it for the summary row does not fail:
    the row reads "Average Billing Amount: $nan". *)
Theorem unbilled_average_is_shown_as_nan :
  forall table : list Row,
    (forall r, In r table -> BillingAmount r = None) ->
    avg_billing table = None
    /\ summary_billing_text table = "Average Billing Amount: $nan".
Proof.
  intros table Hmissing.
  assert (Havg : avg_billing table = None).
  { unfold avg_billing, mean. rewrite present_all_missing; [reflexivity | ].
    intros c Hc. apply in_map_iff in Hc. destruct Hc as (r & <- & Hr). auto. }
  split; [exact Havg | ].
  unfold summary_billing_text. now rewrite Havg.
Qed.

Lemma unbilled_average_is_shown_as_nan_witness :
  (forall r, In r sample_table_unbilled -> BillingAmount r = None)
  /\ summary_billing_text sample_table_unbilled = "Average Billing Amount: $nan".
Proof.
  assert (Hmissing : forall r, In r sample_table_unbilled -> BillingAmount r = None).
  { intros r Hr. vm_compute in Hr. destruct Hr as [Hr | [Hr | []]]; subst r; reflexivity. }
  split; [exact Hmissing | ].
  apply (unbilled_average_is_shown_as_nan sample_table_unbilled Hmissing).
Defined.

(** ** Histogram bins *)





Lemma present_app (A : Type) (l1 l2 : list (option A)) :
  present (l1 ++ l2) = present l1 ++ present l2.
Proof.
  induction l1 as [ | [a | ] l1 IH]; simpl; [reflexivity | now rewrite IH | exact IH].
Qed.




Lemma add_to_group_total (V : Type) (k : string) (v : V) (groups : list (string * list V)) :
  total_values (add_to_group k v groups) = S (total_values groups).
Proof.
  unfold total_values.
  induction groups as [ | [k' vs] groups IH]; simpl; [reflexivity | ].
  destruct (String.eqb k k'); simpl.
  - rewrite !length_app. simpl. lia.
  - rewrite !length_app in *. rewrite IH. lia.
Qed.

Lemma group_by_total_from (V : Type) (key : Row -> option string) (val : Row -> V)
      (rows : list Row) (acc : list (string * list V)) :
  total_values (fold_left (fun a r => match key r with
                                      | Some k => add_to_group k (val r) a
                                      | None => a
                                      end) rows acc)
  = (total_values acc + List.length (filter (keyed key) rows))%nat.
Proof.
  revert acc. induction rows as [ | r rows IH]; intro acc; simpl.
  - lia.
  - rewrite IH. unfold keyed at 2. destruct (key r) as [k | ]; simpl.
    + rewrite add_to_group_total. lia.
    + reflexivity.
Qed.

(** Every row that has a key lands in exactly one colour series, and no other
    row in any. *)
Lemma group_by_total (V : Type) (key : Row -> option string) (val : Row -> V)
      (rows : list Row) :
  total_values (group_by key val rows) = List.length (filter (keyed key) rows).
Proof.
  unfold group_by. now rewrite group_by_total_from.
Qed.






(** * Further properties of the code *)

(** ** Distinct values and colour series *)

Lemma mem_In (x : string) (l : list string) : mem x l = true <-> In x l.
Proof.
  unfold mem. rewrite existsb_exists. split.
  - intros (y & Hy & E). apply String.eqb_eq in E. now subst.
  - intro H. exists x. split; [exact H | apply String.eqb_refl].
Qed.

Lemma mem_false (x : string) (l : list string) : mem x l = false <-> ~ In x l.
Proof.
  rewrite <- mem_In. destruct (mem x l); split; intro H; try discriminate; auto.
  now contradiction H.
Qed.

Lemma unique_snoc (l : list string) (x : string) :
  unique (l ++ [x]) = if mem x (unique l) then unique l else unique l ++ [x].
Proof.
  unfold unique. now rewrite fold_left_app.
Qed.

Lemma unique_In (l : list string) (x : string) : In x (unique l) <-> In x l.
Proof.
  induction l as [ | y l IH] using rev_ind.
  - reflexivity.
  - rewrite unique_snoc, in_app_iff. simpl.
    destruct (mem y (unique l)) eqn:E.
    + apply mem_In in E. split; [tauto | ].
      intros [H | [H | []]]; [now apply IH | now subst].
    + rewrite in_app_iff. simpl. tauto.
Qed.

Lemma unique_NoDup (l : list string) : NoDup (unique l).
Proof.
  induction l as [ | y l IH] using rev_ind.
  - constructor.
  - rewrite unique_snoc. destruct (mem y (unique l)) eqn:E; [exact IH | ].
    apply mem_false in E.
    apply NoDup_rev in IH. rewrite <- (rev_involutive (unique l ++ [y])).
    apply NoDup_rev. rewrite rev_app_distr. simpl.
    constructor; [ | exact IH].
    intro H. apply in_rev in H. exact (E H).
Qed.

Lemma present_In_cells (A : Type) (a : A) (cells : list (option A)) :
  In a (present cells) <-> In (Some a) cells.
Proof.
  induction cells as [ | [q | ] cells IH]; simpl.
  - reflexivity.
  - rewrite IH. split; intros [H | H]; auto; left; congruence.
  - rewrite IH. split; [auto | intros [H | H]; [discriminate | exact H]].
Qed.

Section GroupBy.

Variable V : Type.
Variable key : Row -> option string.
Variable val : Row -> V.

Lemma add_to_group_new (f : string -> list V) (k : string) (v : V) (keys : list string) :
  ~ In k keys ->
  add_to_group k v (map (fun k' => (k', f k')) keys)
  = map (fun k' => (k', f k')) keys ++ [(k, [v])].
Proof.
  induction keys as [ | k' keys IH]; simpl; intro Hnot; [reflexivity | ].
  destruct (String.eqb k k') eqn:E.
  - apply String.eqb_eq in E. subst. tauto.
  - rewrite IH by tauto. reflexivity.
Qed.

Lemma add_to_group_old (f : string -> list V) (k : string) (v : V) (keys : list string) :
  NoDup keys -> In k keys ->
  add_to_group k v (map (fun k' => (k', f k')) keys)
  = map (fun k' => (k', if String.eqb k k' then f k' ++ [v] else f k')) keys.
Proof.
  induction keys as [ | k' keys IH]; simpl; intros Hnd Hin; [contradiction | ].
  inversion Hnd as [ | x l Hnotin Hnd']; subst.
  destruct (String.eqb k k') eqn:E.
  - apply String.eqb_eq in E. subst k'. f_equal.
    apply map_ext_in. intros a Ha.
    destruct (String.eqb k a) eqn:E'; [ | reflexivity].
    apply String.eqb_eq in E'. subst. contradiction.
  - f_equal. apply IH; [exact Hnd' | ].
    destruct Hin as [Hin | Hin]; [ | exact Hin].
    subst. rewrite String.eqb_refl in E. discriminate.
Qed.

Lemma series_of_snoc (rows : list Row) (r : Row) (k : string) :
  series_of key val (rows ++ [r]) k
  = series_of key val rows k ++ (if cell_eq (key r) (PStr k) then [val r] else []).
Proof.
  unfold series_of. rewrite filter_app, map_app. simpl.
  destruct (cell_eq (key r) (PStr k)); reflexivity.
Qed.

Lemma series_of_absent (rows : list Row) (k : string) :
  ~ In k (present (map key rows)) -> series_of key val rows k = [].
Proof.
  intro Hnot. unfold series_of. rewrite filter_none; [reflexivity | ].
  intros r Hr. destruct (cell_eq (key r) (PStr k)) eqn:E; [ | reflexivity].
  apply cell_eq_spec in E. destruct E as (s & Hs & Ek). injection Ek as <-.
  exfalso. apply Hnot. apply present_In_cells. rewrite <- Hs. now apply in_map.
Qed.

(** The colour series of a chart: one per distinct key that is present, in
    order of first appearance, each with the values of its rows in table
    order; the rows without a key are in none. *)
Lemma group_by_series (rows : list Row) :
  group_by key val rows
  = map (fun k => (k, series_of key val rows k)) (unique (present (map key rows))).
Proof.
  induction rows as [ | r rows IH] using rev_ind; [reflexivity | ].
  unfold group_by in *. rewrite fold_left_app. simpl. rewrite IH.
  rewrite map_app, present_app. simpl.
  destruct (key r) as [kr | ] eqn:Ekr; simpl.
  - rewrite unique_snoc.
    destruct (mem kr (unique (present (map key rows)))) eqn:E.
    + apply mem_In in E.
      rewrite add_to_group_old; [ | apply unique_NoDup | exact E].
      apply map_ext. intro k. rewrite series_of_snoc, Ekr. simpl.
      destruct (String.eqb kr k); [reflexivity | now rewrite app_nil_r].
    + apply mem_false in E.
      rewrite add_to_group_new by exact E.
      rewrite map_app. simpl. f_equal.
      * apply map_ext_in. intros k Hk. rewrite series_of_snoc, Ekr. simpl.
        destruct (String.eqb kr k) eqn:E'.
        -- apply String.eqb_eq in E'. subst. contradiction.
        -- now rewrite app_nil_r.
      * rewrite series_of_snoc, Ekr. simpl. rewrite String.eqb_refl.
        rewrite series_of_absent; [reflexivity | ].
        intro H. apply E. now apply unique_In.
  - rewrite app_nil_r. apply map_ext. intro k.
    rewrite series_of_snoc, Ekr. simpl. now rewrite app_nil_r.
Qed.

End GroupBy.

(** ** Requests served one after the other *)

Section Extends.

Variable table : list Row.
Variable rest : Heap.

(** The filtering expression adds at most one frame behind those present. *)
Lemma select_rows_extends (column : Row -> option string) (selected : pyval) :
  exists (r : ref) (fresh : Heap),
    select_rows column selected (Records table :: rest)
    = (Ok r, (Records table :: rest) ++ fresh)
    /\ records_of r ((Records table :: rest) ++ fresh)
       = (Ok (kept column selected table), (Records table :: rest) ++ fresh)
    /\ (List.length fresh <= 1)%nat.
Proof.
  rewrite select_rows_run. unfold kept.
  destruct (truthy selected).
  - exists (S (List.length rest)), [Records (matching column selected table)].
    split; [reflexivity | ]. split; [ | simpl; lia].
    apply (records_of_fresh (Records table :: rest)).
  - exists df, []. rewrite app_nil_r. split; [reflexivity | ].
    split; [reflexivity | simpl; lia].
Qed.

Lemma dispatch_extends (c : Call) :
  exists (res : Result Figure) (fresh : Heap),
    dispatch c (Records table :: rest) = (res, (Records table :: rest) ++ fresh)
    /\ (List.length fresh <= 2)%nat.
Proof.
  destruct c as [g | g | ct sc | g sv | g]; simpl.
  - destruct (select_rows_extends Gender g) as (r & fresh & Hsel & Hread & Hlen).
    unfold update_age_distribution. step Hsel. step Hread.
    destruct (kept Gender g table); eexists; exists fresh; (split; [reflexivity | lia]).
  - destruct (select_rows_extends Gender g) as (r & fresh & Hsel & Hread & Hlen).
    unfold update_condition_distribution. step Hsel. step Hread.
    eexists; exists fresh; (split; [reflexivity | lia]).
  - destruct (select_rows_extends MedicalCondition sc) as (r & fresh & Hsel & Hread & Hlen).
    set (h1 := (Records table :: rest) ++ fresh) in *.
    unfold update_admission_trends, groupby_YearMonth_size.
    step Hsel. unfold bind at 1. step Hread. unfold new_frame.
    step (trend_of_fresh h1). step (setitem_YearMonth_fresh h1).
    step (trend_of_fresh h1).
    destruct (py_eq_str ct "line");
      (eexists; eexists (fresh ++ [_]); split;
       [unfold h1; rewrite <- app_assoc; reflexivity | rewrite length_app; simpl; lia]).
  - destruct (select_rows_extends Gender g) as (r & fresh & Hsel & Hread & Hlen).
    set (h1 := (Records table :: rest) ++ fresh) in *.
    unfold update_billing_distribution, getitem_mask. step Hsel.
    assert (Hpass : forall mask : Row -> bool,
               exists (res : Result Figure) (fresh' : Heap),
                 (filtered_df <- (rows <- records_of r ;;
                                  new_frame (Records (filter mask rows))) ;;
                  rows <- records_of filtered_df ;;
                  ret (Histogram "Billing Amount Distribution" "Billing Amount" 10
                         [("", map BillingAmount rows)])) h1
                 = (res, (Records table :: rest) ++ fresh')
                 /\ (List.length fresh' <= 2)%nat).
    { intro mask. unfold bind at 1. step Hread. unfold new_frame.
      step (records_of_fresh h1).
      eexists. eexists (fresh ++ [_]). split.
      - unfold h1. rewrite <- app_assoc. reflexivity.
      - rewrite length_app. simpl. lia. }
    destruct sv as [ | b | q | s]; simpl.
    + apply (Hpass (fun _ => false)).
    + apply (Hpass (billing_le (if b then 1 # 1 else 0 # 1))).
    + apply (Hpass (billing_le q)).
    + exists (Raise TypeError), fresh. split; [reflexivity | lia].
  - destruct (select_rows_extends Gender g) as (r & fresh & Hsel & Hread & Hlen).
    unfold update_insurance_comparison. step Hsel. step Hread.
    eexists; exists fresh; (split; [reflexivity | lia]).
Qed.

End Extends.

Lemma dispatch_result_heap_free (table : list Row) (rest : Heap) (c : Call) :
  fst (dispatch c (Records table :: rest)) = returns table (dispatch c).
Proof.
  unfold returns, loaded.
  destruct c as [g | g | ct sc | g sv | g]; simpl.
  - destruct (update_age_distribution_run table rest g) as [r1 H1].
    destruct (update_age_distribution_run table [] g) as [r2 H2].
    now rewrite H1, H2.
  - destruct (update_condition_distribution_run table rest g) as [r1 H1].
    destruct (update_condition_distribution_run table [] g) as [r2 H2].
    now rewrite H1, H2.
  - destruct (update_admission_trends_run table rest ct sc) as [r1 H1].
    destruct (update_admission_trends_run table [] ct sc) as [r2 H2].
    now rewrite H1, H2.
  - assert (Hmask : forall mask, (forall h, le_mask sv h = (Ok mask, h)) ->
               fst (update_billing_distribution g sv (Records table :: rest))
               = fst (update_billing_distribution g sv [Records table])).
    { intros mask Hm.
      destruct (update_billing_distribution_masked table rest g sv mask Hm) as [r1 H1].
      destruct (update_billing_distribution_masked table [] g sv mask Hm) as [r2 H2].
      now rewrite H1, H2. }
    destruct sv as [ | b | q | s].
    + apply (Hmask (fun _ => false)). reflexivity.
    + apply (Hmask (billing_le (if b then 1 # 1 else 0 # 1))). reflexivity.
    + apply (Hmask (billing_le q)). reflexivity.
    + destruct (select_rows_shape table rest Gender g) as (r1 & rest1 & Hsel1 & _).
      destruct (select_rows_shape table [] Gender g) as (r2 & rest2 & Hsel2 & _).
      unfold update_billing_distribution.
      unfold bind. rewrite Hsel1, Hsel2. reflexivity.
  - destruct (update_insurance_comparison_run table rest g) as [r1 H1].
    destruct (update_insurance_comparison_run table [] g) as [r2 H2].
    now rewrite H1, H2.
Qed.

Lemma heap_after_keeps_table (table : list Row) (calls : list Call) (rest : Heap) :
  exists rest' : Heap, heap_after calls (Records table :: rest) = Records table :: rest'.
Proof.
  revert rest. induction calls as [ | c calls IH]; intro rest; simpl.
  - now exists rest.
  - destruct (dispatch_extends table rest c) as (res & fresh & Hrun & _).
    unfold heap_after in *. simpl. rewrite Hrun. simpl. apply IH.
Qed.

(** X1: whatever requests were served before, in whatever order and also when
    some of them raised, a request returns what it returns right after the
    load, and the global frame still holds the loaded table. *)
Theorem results_do_not_depend_on_history :
  forall (table : list Row) (calls : list Call) (c : Call),
    fst (dispatch c (heap_after calls (loaded table))) = returns table (dispatch c)
    /\ nth_error (heap_after calls (loaded table)) df = Some (Records table).
Proof.
  intros table calls c. unfold loaded.
  destruct (heap_after_keeps_table table calls []) as [rest' H].
  rewrite H. split; [apply dispatch_result_heap_free | reflexivity].
Qed.

(** X2: serving a request never alters a frame that was there before it, the
    table's or any other: the heap afterwards is the heap before followed by
    at most two new frames. *)
Theorem requests_only_add_frames :
  forall (table : list Row) (rest : Heap) (c : Call),
    exists fresh : Heap,
      snd (dispatch c (Records table :: rest)) = (Records table :: rest) ++ fresh
      /\ (List.length fresh <= 2)%nat.
Proof.
  intros table rest c.
  destruct (dispatch_extends table rest c) as (res & fresh & Hrun & Hlen).
  exists fresh. now rewrite Hrun.
Qed.

(** ** What each view shows *)

Lemma returns_age (table : list Row) (g : pyval) :
  returns table (update_age_distribution g)
  = Ok (match kept Gender g table with
        | [] => EmptyFigure
        | _ :: _ =>
            Histogram "Age Distribution by Gender" "Age" 10
              (group_by Gender (fun r => option_map inject_Z (Age r)) (kept Gender g table))
        end).
Proof.
  unfold returns, loaded.
  destruct (update_age_distribution_run table [] g) as [rest' H]. now rewrite H.
Qed.

Lemma returns_age_some (table : list Row) (g : pyval) :
  kept Gender g table <> [] ->
  returns table (update_age_distribution g)
  = Ok (Histogram "Age Distribution by Gender" "Age" 10
          (group_by Gender (fun r => option_map inject_Z (Age r)) (kept Gender g table))).
Proof.
  intro Hne. rewrite returns_age.
  destruct (kept Gender g table); [congruence | reflexivity].
Qed.

Lemma returns_condition (table : list Row) (g : pyval) :
  returns table (update_condition_distribution g)
  = Ok (Pie "Medical Condition Distribution" "Medical Condition"
          (map MedicalCondition (kept Gender g table))).
Proof.
  unfold returns, loaded.
  destruct (update_condition_distribution_run table [] g) as [rest' H]. now rewrite H.
Qed.

Lemma returns_insurance (table : list Row) (g : pyval) :
  returns table (update_insurance_comparison g)
  = Ok (GroupedBar "Insurance Provider Billing Comparison" "Insurance Provider"
          "Billing Amount"
          (group_by MedicalCondition (fun r => (InsuranceProvider r, BillingAmount r))
             (kept Gender g table))).
Proof.
  unfold returns, loaded.
  destruct (update_insurance_comparison_run table [] g) as [rest' H]. now rewrite H.
Qed.

Lemma returns_billing (table : list Row) (g : pyval) (c : Q) :
  returns table (update_billing_distribution g (PNum c))
  = Ok (billing_chart (filter (billing_le c) (kept Gender g table))).
Proof.
  unfold returns, loaded.
  destruct (update_billing_distribution_run table [] g c) as [rest' H]. now rewrite H.
Qed.

Lemma returns_trends (table : list Row) (ct sc : pyval) :
  returns table (update_admission_trends ct sc)
  = Ok (trend_chart ct (trend_points (trend_buckets table sc))).
Proof.
  unfold returns, loaded.
  destruct (update_admission_trends_run table [] ct sc) as [rest' H]. now rewrite H.
Qed.

Lemma unique_constant_from (g : string) (l : list string) :
  (forall x, In x l -> x = g) ->
  fold_left (fun acc x => if mem x acc then acc else acc ++ [x]) l [g] = [g].
Proof.
  induction l as [ | y l IH]; simpl; intro H; [reflexivity | ].
  rewrite (H y (or_introl eq_refl)). unfold mem at 1. simpl.
  rewrite String.eqb_refl. simpl. apply IH. auto.
Qed.

Lemma unique_constant (g : string) (l : list string) :
  l <> [] -> (forall x, In x l -> x = g) -> unique l = [g].
Proof.
  destruct l as [ | y l]; [congruence | ]. intros _ H.
  unfold unique. simpl. rewrite (H y (or_introl eq_refl)).
  apply unique_constant_from. intros x Hx. apply H. now right.
Qed.

Lemma kept_some_nonempty (table : list Row) (column : Row -> option string)
      (selected : pyval) (r : Row) :
  In r (kept column selected table) -> kept column selected table <> [].
Proof.
  intros Hin Hnil. rewrite Hnil in Hin. contradiction.
Qed.

(** X3: whenever some kept row has a Gender, the Age Distribution histogram
    has one colour series per gender present among the kept rows, in order of
    first appearance and without repeats; each series holds the Age cells of
    the kept rows of that gender, in table order.  A kept row whose Gender is
    missing is in no series. *)
Theorem age_histogram_series_per_gender :
  forall (table : list Row) (selected_gender : pyval),
    (exists r g, In r (kept Gender selected_gender table) /\ Gender r = Some g) ->
    let rows := kept Gender selected_gender table in
    returns table (update_age_distribution selected_gender)
    = Ok (Histogram "Age Distribution by Gender" "Age" 10
            (map (fun g => (g, map (fun r => option_map inject_Z (Age r))
                                   (filter (fun r => cell_eq (Gender r) (PStr g)) rows)))
                 (unique (present (map Gender rows)))))
    /\ NoDup (unique (present (map Gender rows)))
    /\ (forall g, In g (unique (present (map Gender rows)))
                  <-> exists r, In r rows /\ Gender r = Some g).
Proof.
  intros table sel (r0 & g0 & Hin & Hg) rows. split; [ | split].
  - rewrite (returns_age_some table sel (kept_some_nonempty _ _ _ _ Hin)).
    now rewrite group_by_series.
  - apply unique_NoDup.
  - intro g. rewrite unique_In, present_In_cells, in_map_iff.
    split; intros (r & H1 & H2); exists r; tauto.
Qed.

Lemma age_histogram_series_per_gender_witness :
  (exists r g, In r (kept Gender PNone sample_table_gaps) /\ Gender r = Some g)
  /\ returns sample_table_gaps (update_age_distribution PNone)
     = Ok (Histogram "Age Distribution by Gender" "Age" 10
             [("M", ages [34]); ("F", [None])]).
Proof.
  assert (Hsome : exists r g, In r (kept Gender PNone sample_table_gaps)
                              /\ Gender r = Some g).
  { eexists. exists "M". split; [left; reflexivity | reflexivity]. }
  split; [exact Hsome | ].
  apply (age_histogram_series_per_gender sample_table_gaps PNone Hsome).
Defined.

(** X4: with a non-empty gender selected that some row has, the Age
    Distribution histogram has exactly one colour series, named after the
    selection, holding the Age cells of the rows of that gender in table
    order. *)
Theorem age_histogram_single_series :
  forall (table : list Row) (g : string),
    g <> "" ->
    (exists r, In r table /\ Gender r = Some g) ->
    returns table (update_age_distribution (PStr g))
    = Ok (Histogram "Age Distribution by Gender" "Age" 10
            [(g, map (fun r => option_map inject_Z (Age r))
                     (filter (fun r => cell_eq (Gender r) (PStr g)) table))]).
Proof.
  intros table g Hg (r0 & Hin & Hr0).
  assert (Hkept : kept Gender (PStr g) table
                  = filter (fun r => cell_eq (Gender r) (PStr g)) table).
  { unfold kept, matching. simpl.
    destruct (String.eqb g "") eqn:E; [ | reflexivity].
    apply String.eqb_eq in E. contradiction. }
  assert (Hin' : In r0 (filter (fun r => cell_eq (Gender r) (PStr g)) table)).
  { apply filter_In. split; [exact Hin | ]. rewrite Hr0. simpl. apply String.eqb_refl. }
  assert (Hne : kept Gender (PStr g) table <> []).
  { rewrite Hkept. intro Hnil. rewrite Hnil in Hin'. contradiction. }
  rewrite (returns_age_some table (PStr g) Hne).
  rewrite group_by_series. rewrite Hkept in *.
  rewrite (unique_constant g).
  - simpl. unfold series_of. now rewrite filter_twice.
  - intro Hnil.
    assert (H : In g (present (map Gender
                        (filter (fun r => cell_eq (Gender r) (PStr g)) table)))).
    { apply present_In_cells. rewrite <- Hr0. now apply in_map. }
    rewrite Hnil in H. contradiction.
  - intros x Hx. apply present_In_cells in Hx. apply in_map_iff in Hx.
    destruct Hx as (r' & Hx & Hr').
    apply filter_In in Hr'. destruct Hr' as [_ Hr'].
    apply cell_eq_spec in Hr'. destruct Hr' as (s & Hs & Es).
    injection Es as <-. congruence.
Qed.

Lemma age_histogram_single_series_witness :
  "F" <> ""
  /\ returns sample_table_wide (update_age_distribution (PStr "F"))
     = Ok (Histogram "Age Distribution by Gender" "Age" 10
             [("F", ages [58; 71; 45])]).
Proof.
  split; [discriminate | ].
  apply (age_histogram_single_series sample_table_wide "F").
  - discriminate.
  - exists (mkRow (Some 58) (Some "F") (Some "Diabetes") (Some "Cigna") None
                  (Some (mkDate 2023 2 3)) (Some 637)).
    split; [right; left; reflexivity | reflexivity].
Defined.

(** X5: the Age Distribution callback returns the empty figure exactly when
    the selection keeps no row. *)
Theorem age_distribution_empty_iff_no_rows :
  forall (table : list Row) (selected_gender : pyval),
    returns table (update_age_distribution selected_gender) = Ok EmptyFigure
    <-> kept Gender selected_gender table = [].
Proof.
  intros table g. rewrite returns_age.
  destruct (kept Gender g table) as [ | r rows]; split; intro H;
    try reflexivity; discriminate.
Qed.

Lemma same_cell_spec (a b : option string) : same_cell a b = true <-> a = b.
Proof.
  destruct a as [x | ]; destruct b as [y | ]; simpl; split; intro H;
    try discriminate; try reflexivity.
  - apply String.eqb_eq in H. now subst.
  - injection H as ->. apply String.eqb_refl.
Qed.

Lemma unique_cells_snoc (l : list (option string)) (x : option string) :
  unique_cells (l ++ [x])
  = if existsb (same_cell x) (unique_cells l) then unique_cells l
    else unique_cells l ++ [x].
Proof.
  unfold unique_cells. now rewrite fold_left_app.
Qed.

Lemma seen_cell (x : option string) (l : list (option string)) :
  existsb (same_cell x) l = true <-> In x l.
Proof.
  rewrite existsb_exists. split.
  - intros (y & Hy & E). apply same_cell_spec in E. now subst.
  - intro H. exists x. split; [exact H | now apply same_cell_spec].
Qed.

Lemma unique_cells_In (l : list (option string)) (x : option string) :
  In x (unique_cells l) <-> In x l.
Proof.
  induction l as [ | y l IH] using rev_ind.
  - reflexivity.
  - rewrite unique_cells_snoc, in_app_iff. simpl.
    destruct (existsb (same_cell y) (unique_cells l)) eqn:E.
    + apply seen_cell in E. split; [tauto | ].
      intros [H | [H | []]]; [now apply IH | now subst].
    + rewrite in_app_iff. simpl. tauto.
Qed.

Lemma unique_cells_NoDup (l : list (option string)) : NoDup (unique_cells l).
Proof.
  induction l as [ | y l IH] using rev_ind.
  - constructor.
  - rewrite unique_cells_snoc.
    destruct (existsb (same_cell y) (unique_cells l)) eqn:E; [exact IH | ].
    assert (Hnot : ~ In y (unique_cells l)).
    { intro H. apply seen_cell in H. congruence. }
    apply NoDup_rev in IH. rewrite <- (rev_involutive (unique_cells l ++ [y])).
    apply NoDup_rev. rewrite rev_app_distr. simpl.
    constructor; [ | exact IH].
    intro H. apply in_rev in H. exact (Hnot H).
Qed.

(** X6: the gender dropdown offers each value of the Gender column once, as
    label and as value, the missing value included when some Gender cell is
    missing; and whichever offered string is picked, the Age Distribution
    callback returns a histogram over the kept rows, never the empty
    figure. *)
Theorem gender_options_are_the_genders_present :
  forall table : list Row,
    NoDup (map snd (gender_options table))
    /\ (forall label value,
          In (label, value) (gender_options table)
          <-> label = value /\ exists r, In r table /\ Gender r = value)
    /\ (forall g,
          In (Some g, Some g) (gender_options table) ->
          kept Gender (PStr g) table <> []
          /\ returns table (update_age_distribution (PStr g))
             = Ok (Histogram "Age Distribution by Gender" "Age" 10
                     (group_by Gender (fun r => option_map inject_Z (Age r))
                        (kept Gender (PStr g) table)))).
Proof.
  intro table. unfold gender_options, dropdown_options.
  assert (Hopt : forall label value,
             In (label, value) (map (fun v => (v, v)) (unique_cells (map Gender table)))
             <-> label = value /\ exists r, In r table /\ Gender r = value).
  { intros label value. rewrite in_map_iff. split.
    - intros (v & E & Hv). injection E as <- <-. split; [reflexivity | ].
      apply (proj1 (unique_cells_In _ _)) in Hv. apply in_map_iff in Hv.
      destruct Hv as (r & H1 & H2). now exists r.
    - intros [<- (r & Hr & Hg)]. exists label. split; [reflexivity | ].
      apply unique_cells_In. rewrite <- Hg. now apply in_map. }
  split; [ | split].
  - rewrite map_map. simpl. rewrite map_id. apply unique_cells_NoDup.
  - exact Hopt.
  - intros g Hin. apply Hopt in Hin. destruct Hin as [_ (r & Hr & Hg)].
    assert (Hne : kept Gender (PStr g) table <> []).
    { unfold kept, matching. destruct (truthy (PStr g)).
      - intro Hnil.
        assert (H : In r (filter (fun r => cell_eq (Gender r) (PStr g)) table)).
        { apply filter_In. split; [exact Hr | ]. rewrite Hg. simpl.
          apply String.eqb_refl. }
        rewrite Hnil in H. contradiction.
      - intro Hnil. rewrite Hnil in Hr. contradiction. }
    split; [exact Hne | now apply returns_age_some].
Qed.

(** X7: when some kept row has a Medical Condition, the Insurance Comparison
    chart carries one bar per kept row that has one, without adding amounts
    up: one colour series per condition present among the kept rows, in order
    of first appearance, each holding the provider and amount cells of every
    kept row of that condition, a row with a missing amount included.  A kept
    row whose Medical Condition is missing has no bar. *)
Theorem insurance_comparison_one_bar_per_row :
  forall (table : list Row) (selected_gender : pyval),
    (exists r c, In r (kept Gender selected_gender table) /\ MedicalCondition r = Some c) ->
    let rows := kept Gender selected_gender table in
    let traces :=
      map (fun c => (c, map (fun r => (InsuranceProvider r, BillingAmount r))
                            (filter (fun r => cell_eq (MedicalCondition r) (PStr c)) rows)))
          (unique (present (map MedicalCondition rows))) in
    returns table (update_insurance_comparison selected_gender)
    = Ok (GroupedBar "Insurance Provider Billing Comparison" "Insurance Provider"
            "Billing Amount" traces)
    /\ total_values traces = List.length (filter (keyed MedicalCondition) rows).
Proof.
  intros table g Hsome rows traces.
  assert (E : group_by MedicalCondition (fun r => (InsuranceProvider r, BillingAmount r)) rows
              = traces) by apply group_by_series.
  split.
  - rewrite returns_insurance. fold rows. now rewrite E.
  - rewrite <- E. apply group_by_total.
Qed.

Lemma insurance_comparison_one_bar_per_row_witness :
  (exists r c, In r (kept Gender PNone sample_table_gaps) /\ MedicalCondition r = Some c)
  /\ returns sample_table_gaps (update_insurance_comparison PNone)
     = Ok (GroupedBar "Insurance Provider Billing Comparison" "Insurance Provider"
             "Billing Amount"
             [("Asthma", [(Some "Aetna", Some (100 # 1))]);
              ("Diabetes", [(Some "Cigna", Some (250 # 1))])]).
Proof.
  assert (Hsome : exists r c, In r (kept Gender PNone sample_table_gaps)
                              /\ MedicalCondition r = Some c).
  { eexists. exists "Asthma". split; [left; reflexivity | reflexivity]. }
  split; [exact Hsome | ].
  apply (insurance_comparison_one_bar_per_row sample_table_gaps PNone Hsome).
Defined.

(** ** What the month buckets count *)

Section Buckets.

Variable k : period.

Lemma bump_counted (p : period) (acc : list (period * nat)) :
  counted k (bump p acc) = (counted k acc + if Z.eqb p k then 1 else 0)%nat.
Proof.
  unfold counted. induction acc as [ | [k' n] acc IH]; simpl.
  - destruct (p =? k); simpl; lia.
  - destruct (p <? k') eqn:Hlt; simpl.
    + destruct (p =? k); destruct (k' =? k); simpl; lia.
    + destruct (p =? k') eqn:Heq; simpl.
      * apply Z.eqb_eq in Heq. subst k'. destruct (p =? k); simpl; lia.
      * destruct (k' =? k); simpl; rewrite IH; lia.
Qed.

Lemma groupby_counted_from (rows : list Row) (acc : list (period * nat)) :
  counted k (fold_left (fun a o => match o with Some p => bump p a | None => a end)
                     (map YearMonth rows) acc)
  = (counted k acc + List.length (filter (in_month k) rows))%nat.
Proof.
  revert acc. induction rows as [ | r rows IH]; intro acc; simpl; [lia | ].
  rewrite IH. unfold in_month at 2.
  destruct (YearMonth r) as [p | ]; [ | lia].
  rewrite bump_counted. destruct (p =? k); simpl; lia.
Qed.

Lemma counted_of_member (buckets : list (period * nat)) (n : nat) :
  NoDup (map fst buckets) -> In (k, n) buckets -> counted k buckets = n.
Proof.
  unfold counted. induction buckets as [ | [k' n'] buckets IH]; simpl; intros Hnd Hin.
  - contradiction.
  - inversion Hnd as [ | x l Hnot Hnd']; subst.
    destruct Hin as [E | Hin].
    + injection E as -> ->. rewrite Z.eqb_refl. simpl.
      rewrite filter_none; [simpl; lia | ].
      intros [k2 n2] H2. simpl. destruct (k2 =? k) eqn:E2; [ | reflexivity].
      apply Z.eqb_eq in E2. subst. exfalso. apply Hnot.
      apply in_map_iff. now exists (k, n2).
    + destruct (k' =? k) eqn:E.
      * apply Z.eqb_eq in E. subst. exfalso. apply Hnot.
        apply in_map_iff. now exists (k, n).
      * now apply IH.
Qed.

Lemma counted_positive_member (buckets : list (period * nat)) :
  (0 < counted k buckets)%nat -> exists n, In (k, n) buckets.
Proof.
  unfold counted. induction buckets as [ | [k' n'] buckets IH]; simpl; intro H.
  - lia.
  - destruct (k' =? k) eqn:E.
    + apply Z.eqb_eq in E. subst. exists n'. now left.
    + destruct (IH H) as [n Hn]. exists n. now right.
Qed.

End Buckets.

Lemma bump_positive (p : period) (acc : list (period * nat)) :
  Forall (fun b => (0 < snd b)%nat) acc ->
  Forall (fun b => (0 < snd b)%nat) (bump p acc).
Proof.
  induction acc as [ | [k' n] acc IH]; simpl; intro H.
  - constructor; [simpl; lia | constructor].
  - inversion H as [ | x l Hx Hl]; subst.
    destruct (p <? k').
    + constructor; [simpl; lia | exact H].
    + destruct (p =? k'); constructor; simpl in *; auto; lia.
Qed.

Lemma groupby_positive_from (keys : list (option period)) (acc : list (period * nat)) :
  Forall (fun b => (0 < snd b)%nat) acc ->
  Forall (fun b => (0 < snd b)%nat)
    (fold_left (fun a o => match o with Some p => bump p a | None => a end) keys acc).
Proof.
  revert acc. induction keys as [ | [p | ] keys IH]; simpl; intros acc H; auto.
  apply IH. now apply bump_positive.
Qed.

Lemma bump_total (p : period) (acc : list (period * nat)) :
  list_sum (map snd (bump p acc)) = S (list_sum (map snd acc)).
Proof.
  induction acc as [ | [k' n] acc IH]; simpl; [reflexivity | ].
  destruct (p <? k'); simpl; [lia | ].
  destruct (p =? k'); simpl; [lia | rewrite IH; lia].
Qed.

Lemma groupby_total_from (rows : list Row) (acc : list (period * nat)) :
  list_sum (map snd (fold_left (fun a o => match o with Some p => bump p a | None => a end)
                               (map YearMonth rows) acc))
  = (list_sum (map snd acc) + List.length (filter dated rows))%nat.
Proof.
  revert acc. induction rows as [ | r rows IH]; intro acc; simpl; [lia | ].
  rewrite IH. unfold dated at 2.
  destruct (YearMonth r) as [p | ]; [ | lia].
  rewrite bump_total. simpl. lia.
Qed.

Lemma increasing_NoDup (l : list Z) : StronglySorted Z.lt l -> NoDup l.
Proof.
  induction 1 as [ | a l Hs IH Hall]; constructor; [ | exact IH].
  intro Hin. rewrite Forall_forall in Hall. specialize (Hall a Hin). lia.
Qed.

(** X8: the Admission Trends chart has a bucket for a month exactly when some
    kept row was admitted in it, and the count of the bucket is the number of
    those rows: no month without admissions is made up, and none with
    admissions is left out. *)
Theorem admission_trends_bucket_counts_rows_of_month :
  forall (table : list Row) (chart_type selected_condition : pyval) (k : period) (n : nat),
    returns table (update_admission_trends chart_type selected_condition)
    = Ok (trend_chart chart_type (trend_points (trend_buckets table selected_condition)))
    /\ (In (k, n) (trend_buckets table selected_condition)
        <-> (0 < n)%nat
            /\ n = List.length (filter (in_month k)
                                  (kept MedicalCondition selected_condition table))).
Proof.
  intros table ct sc k n. split; [apply returns_trends | ].
  set (rows := kept MedicalCondition sc table).
  assert (Hcount : forall k',
             counted k' (trend_buckets table sc)
             = List.length (filter (in_month k') rows)).
  { intro k'. unfold trend_buckets, groupby_size. fold rows.
    now rewrite groupby_counted_from. }
  assert (Hnd : NoDup (map fst (trend_buckets table sc))).
  { apply increasing_NoDup. apply groupby_size_sorted. }
  assert (Hpos : Forall (fun b => (0 < snd b)%nat) (trend_buckets table sc)).
  { apply groupby_positive_from. constructor. }
  split.
  - intro Hin. split.
    + rewrite Forall_forall in Hpos. exact (Hpos (k, n) Hin).
    + rewrite <- Hcount. symmetry. now apply counted_of_member.
  - intros [Hn ->]. rewrite <- Hcount in Hn.
    destruct (counted_positive_member k _ Hn) as [n' Hn'].
    rewrite <- Hcount. now rewrite (counted_of_member k _ n' Hnd Hn').
Qed.

(** X9: the counts of the Admission Trends chart add up to the number of kept
    rows that have an admission date; a row without one is counted in no
    bucket. *)
Theorem admission_trends_counts_sum_to_dated_rows :
  forall (table : list Row) (chart_type selected_condition : pyval),
    returns table (update_admission_trends chart_type selected_condition)
    = Ok (trend_chart chart_type (trend_points (trend_buckets table selected_condition)))
    /\ list_sum (map snd (trend_points (trend_buckets table selected_condition)))
       = List.length (filter dated (kept MedicalCondition selected_condition table)).
Proof.
  intros table ct sc. split; [apply returns_trends | ].
  unfold trend_points. rewrite map_map. simpl.
  unfold trend_buckets, groupby_size. now rewrite groupby_total_from.
Qed.

(** ** The billing histogram and the slider *)

Lemma present_In (v : Q) (cells : list (option Q)) :
  In v (present cells) <-> In (Some v) cells.
Proof.
  apply present_In_cells.
Qed.

(** The rows under the ceiling all have an amount: the cells the histogram
    carries are the present amounts that are not above it. *)
Lemma amounts_under_ceiling (c : Q) (rows : list Row) :
  map BillingAmount (filter (billing_le c) rows)
  = amounts (filter (fun v => Qle_bool v c) (present (map BillingAmount rows))).
Proof.
  unfold amounts.
  induction rows as [ | r rows IH]; simpl; [reflexivity | ].
  unfold billing_le at 1. destruct (BillingAmount r) as [b | ] eqn:E; simpl.
  - destruct (Qle_bool b c); simpl; rewrite ?E; simpl; now rewrite IH.
  - exact IH.
Qed.

(** X10: the Billing Distribution histogram holds exactly the amounts of the
    kept rows that are present and not above the ceiling: a missing amount is
    never shown, an amount above the ceiling neither, and no other amount is
    dropped. *)
Theorem billing_histogram_holds_amounts_up_to_ceiling :
  forall (table : list Row) (selected_gender : pyval) (ceiling v : Q),
    let values :=
      filter (fun x => Qle_bool x ceiling)
             (present (map BillingAmount (kept Gender selected_gender table))) in
    returns table (update_billing_distribution selected_gender (PNum ceiling))
    = Ok (Histogram "Billing Amount Distribution" "Billing Amount" 10
            [("", amounts values)])
    /\ (In v values
        <-> (v <= ceiling)%Q
            /\ exists r, In r (kept Gender selected_gender table)
                         /\ BillingAmount r = Some v).
Proof.
  intros table g c v values. split.
  - rewrite returns_billing. unfold billing_chart. now rewrite amounts_under_ceiling.
  - unfold values. rewrite filter_In, present_In, in_map_iff, Qle_bool_iff.
    split.
    + intros [(r & E & Hr) Hle]. split; [exact Hle | now exists r].
    + intros [Hle (r & Hr & E)]. split; [now exists r | exact Hle].
Qed.

Lemma amounts_inj (l1 l2 : list Q) : amounts l1 = amounts l2 -> l1 = l2.
Proof.
  unfold amounts. revert l2.
  induction l1 as [ | x l1 IH]; intros [ | y l2] H; simpl in H;
    try discriminate; [reflexivity | ].
  injection H as -> H. f_equal. now apply IH.
Qed.

Lemma filter_lower_ceiling (low high : Q) (Hle : (low <= high)%Q) (l : list Q) :
  filter (fun x => Qle_bool x low) (filter (fun x => Qle_bool x high) l)
  = filter (fun x => Qle_bool x low) l.
Proof.
  induction l as [ | x l IH]; simpl; [reflexivity | ].
  destruct (Qle_bool x high) eqn:Eh; simpl.
  - destruct (Qle_bool x low); now rewrite IH.
  - destruct (Qle_bool x low) eqn:El; [ | exact IH].
    apply Qle_bool_iff in El.
    assert (Hxh : Qle_bool x high = true)
      by (apply Qle_bool_iff; now apply Qle_trans with low).
    congruence.
Qed.

(** X11: lowering the ceiling only takes amounts away: the histogram for a
    ceiling holds, in the same order, those amounts of the histogram for any
    higher ceiling that are not above the lower one. *)
Theorem billing_histogram_shrinks_with_ceiling :
  forall (table : list Row) (selected_gender : pyval) (low high : Q),
    (low <= high)%Q ->
    exists values_high : list Q,
      returns table (update_billing_distribution selected_gender (PNum high))
      = Ok (Histogram "Billing Amount Distribution" "Billing Amount" 10
              [("", amounts values_high)])
      /\ returns table (update_billing_distribution selected_gender (PNum low))
         = Ok (Histogram "Billing Amount Distribution" "Billing Amount" 10
                 [("", amounts (filter (fun x => Qle_bool x low) values_high))]).
Proof.
  intros table g low high Hle.
  exists (filter (fun x => Qle_bool x high)
                 (present (map BillingAmount (kept Gender g table)))).
  rewrite !returns_billing. unfold billing_chart. rewrite !amounts_under_ceiling.
  split; [reflexivity | ]. now rewrite (filter_lower_ceiling low high Hle).
Qed.

Lemma billing_histogram_shrinks_with_ceiling_witness :
  (1000 # 1 <= 2000 # 1)%Q
  /\ returns sample_table_wide (update_billing_distribution PNone (PNum (1000 # 1)))
     = Ok (Histogram "Billing Amount Distribution" "Billing Amount" 10
             [("", amounts [300 # 1; 3201 # 4])]).
Proof.
  assert (Hle : (1000 # 1 <= 2000 # 1)%Q) by (unfold Qle; simpl; lia).
  split; [exact Hle | ].
  destruct (billing_histogram_shrinks_with_ceiling sample_table_wide PNone
              (1000 # 1) (2000 # 1) Hle) as (values_high & Hhigh & Hlow).
  assert (Hshown : returns sample_table_wide
                           (update_billing_distribution PNone (PNum (2000 # 1)))
                   = Ok (Histogram "Billing Amount Distribution" "Billing Amount" 10
                           [("", amounts [2401 # 2; 300 # 1; 3201 # 4])]))
    by reflexivity.
  rewrite Hshown in Hhigh.
  assert (E : amounts [2401 # 2; 300 # 1; 3201 # 4] = amounts values_high)
    by congruence.
  apply amounts_inj in E. subst values_high. exact Hlow.
Defined.

Lemma Qmax_list_acc (xs : list Q) (x : Q) : (x <= Qmax_list x xs)%Q.
Proof.
  revert x. induction xs as [ | y ys IH]; intro x; simpl; [apply Qle_refl | ].
  destruct (Qle_bool x y) eqn:E.
  - apply Qle_bool_iff in E. apply Qle_trans with y; [exact E | apply IH].
  - apply IH.
Qed.

Lemma Qmax_list_ge (xs : list Q) (x v : Q) :
  In v (x :: xs) -> (v <= Qmax_list x xs)%Q.
Proof.
  revert x. induction xs as [ | y ys IH]; intros x Hin; simpl.
  - destruct Hin as [<- | []]. apply Qle_refl.
  - destruct Hin as [<- | [<- | Hin]].
    + destruct (Qle_bool x y) eqn:E; [ | apply Qmax_list_acc].
      apply Qle_bool_iff in E. apply Qle_trans with y; [exact E | apply Qmax_list_acc].
    + destruct (Qle_bool x y) eqn:E; [apply Qmax_list_acc | ].
      apply Qle_trans with x; [ | apply Qmax_list_acc].
      apply Qlt_le_weak. apply Qnot_le_lt. intro H.
      apply Qle_bool_iff in H. congruence.
    + apply IH. now right.
Qed.

Lemma Qmax_list_In (xs : list Q) (x : Q) : In (Qmax_list x xs) (x :: xs).
Proof.
  revert x. induction xs as [ | y ys IH]; intro x; simpl; [now left | ].
  destruct (IH (if Qle_bool x y then y else x)) as [H | H].
  - rewrite <- H. destruct (Qle_bool x y); [right; now left | now left].
  - right. now right.
Qed.

(** X13: the billing slider starts at its maximum, the largest Billing Amount
    of the table: an amount of some row that no amount exceeds; started there
    with no gender selected, as the controls are, the Billing Distribution
    histogram holds every amount present in the table. *)
Theorem initial_slider_shows_every_amount :
  forall (table : list Row) (top : Q),
    slider_value (billing_slider table) = Some top ->
    slider_max (billing_slider table) = Some top
    /\ (exists r, In r table /\ BillingAmount r = Some top)
    /\ (forall v, In (Some v) (map BillingAmount table) -> (v <= top)%Q)
    /\ returns table (update_billing_distribution gender_filter_value (PNum top))
       = Ok (Histogram "Billing Amount Distribution" "Billing Amount" 10
               [("", amounts (present (map BillingAmount table)))]).
Proof.
  intros table top Htop. simpl in *. unfold series_max in *.
  destruct (present (map BillingAmount table)) as [ | q qs] eqn:E; [discriminate | ].
  injection Htop as <-.
  assert (Hle : forall v, In (Some v) (map BillingAmount table) ->
                          (v <= Qmax_list q qs)%Q).
  { intros v Hv. apply Qmax_list_ge. rewrite <- E. now apply present_In. }
  split; [reflexivity | ].
  split.
  { assert (Hin : In (Some (Qmax_list q qs)) (map BillingAmount table)).
    { apply present_In. rewrite E. apply Qmax_list_In. }
    apply in_map_iff in Hin. destruct Hin as (r & Hr & Hin). now exists r. }
  split; [exact Hle | ].
  unfold gender_filter_value.
  rewrite returns_billing. unfold billing_chart, kept. simpl.
  rewrite amounts_under_ceiling, E. rewrite filter_all; [reflexivity | ].
  intros v Hv. apply Qle_bool_iff. apply Hle. apply present_In. now rewrite E.
Qed.

Lemma initial_slider_shows_every_amount_witness :
  slider_value (billing_slider sample_table_wide) = Some (4500 # 1)
  /\ returns sample_table_wide (update_billing_distribution PNone (PNum (4500 # 1)))
     = Ok (Histogram "Billing Amount Distribution" "Billing Amount" 10
             [("", amounts [2401 # 2; 300 # 1; 4500 # 1; 3201 # 4])]).
Proof.
  assert (Htop : slider_value (billing_slider sample_table_wide) = Some (4500 # 1))
    by reflexivity.
  split; [exact Htop | ].
  apply (initial_slider_shows_every_amount sample_table_wide (4500 # 1) Htop).
Defined.

(** ** The slider marks *)

Lemma marks_after_raise (interpolate : Q -> list Q -> float_value)
      (cells : list (option Q)) (levels : list Q) (e : PyError) :
  fold_left (add_mark interpolate cells) levels (Raise e) = Raise e.
Proof.
  induction levels as [ | l levels IH]; simpl; auto.
Qed.

(** X12: when no row has a Billing Amount (the table is empty, or every amount
    is missing), building the marks of the billing slider raises ValueError,
    whatever the interpolation: the quantiles are NaN and int() refuses NaN.
    The layout, of which the marks are a part, is then not built. *)
Theorem slider_marks_raise_without_billing_amount :
  forall (interpolate : Q -> list Q -> float_value) (table : list Row),
    (forall r, In r table -> BillingAmount r = None) ->
    slider_marks interpolate table = Raise ValueError.
Proof.
  intros interpolate table Hmissing.
  assert (Hnil : present (map BillingAmount table) = []).
  { apply present_all_missing. intros c Hc. apply in_map_iff in Hc.
    destruct Hc as (r & <- & Hr). auto. }
  unfold slider_marks, mark_levels.
  cbn [fold_left]. unfold add_mark at 5. unfold quantile at 1.
  rewrite Hnil. simpl sort_values. cbn [py_int].
  now rewrite !marks_after_raise || reflexivity.
Qed.

Lemma slider_marks_raise_without_billing_amount_witness :
  (forall r, In r sample_table_unbilled -> BillingAmount r = None)
  /\ slider_marks linear_interpolation sample_table_unbilled = Raise ValueError.
Proof.
  assert (Hmissing : forall r, In r sample_table_unbilled -> BillingAmount r = None).
  { intros r Hr. vm_compute in Hr. destruct Hr as [Hr | [Hr | []]]; subst r; reflexivity. }
  split; [exact Hmissing | ].
  apply (slider_marks_raise_without_billing_amount linear_interpolation
           sample_table_unbilled Hmissing).
Defined.

Lemma dict_set_keys (k : Z) (v : string) (d : list (Z * string)) :
  map fst (dict_set k v d)
  = if existsb (Z.eqb k) (map fst d) then map fst d else map fst d ++ [k].
Proof.
  induction d as [ | [k' v'] d IH]; simpl; [reflexivity | ].
  destruct (k =? k') eqn:E; simpl; [reflexivity | ].
  rewrite IH. destruct (existsb (Z.eqb k) (map fst d)); reflexivity.
Qed.

Lemma dict_set_NoDup (k : Z) (v : string) (d : list (Z * string)) :
  NoDup (map fst d) -> NoDup (map fst (dict_set k v d)).
Proof.
  intro Hnd. rewrite dict_set_keys.
  destruct (existsb (Z.eqb k) (map fst d)) eqn:E; [exact Hnd | ].
  apply NoDup_rev in Hnd. rewrite <- (rev_involutive (map fst d ++ [k])).
  apply NoDup_rev. rewrite rev_app_distr. simpl.
  constructor; [ | exact Hnd].
  intro Hin. apply in_rev in Hin.
  assert (Ht : existsb (Z.eqb k) (map fst d) = true).
  { apply existsb_exists. exists k. split; [exact Hin | apply Z.eqb_refl]. }
  congruence.
Qed.

Lemma dict_set_entries (P : Z * string -> Prop) (k : Z) (v : string) (d : list (Z * string)) :
  P (k, v) -> Forall P d -> Forall P (dict_set k v d).
Proof.
  intros Hkv. induction d as [ | [k' v'] d IH]; simpl; intro Hd.
  - constructor; [exact Hkv | constructor].
  - inversion Hd as [ | x l Hx Hl]; subst.
    destruct (k =? k') eqn:E.
    + apply Z.eqb_eq in E. subst k'. constructor; [exact Hkv | exact Hl].
    + constructor; [exact Hx | now apply IH].
Qed.

Lemma dict_set_length (k : Z) (v : string) (d : list (Z * string)) :
  (List.length d <= List.length (dict_set k v d) <= S (List.length d))%nat.
Proof.
  induction d as [ | [k' v'] d IH]; simpl; [lia | ].
  destruct (k =? k'); simpl; lia.
Qed.

Lemma dict_set_nonempty (k : Z) (v : string) (d : list (Z * string)) :
  (1 <= List.length (dict_set k v d))%nat.
Proof.
  destruct d as [ | [k' v'] d]; simpl; [lia | ].
  destruct (k =? k'); simpl; lia.
Qed.

Section Marks.

Variable interpolate : Q -> list Q -> float_value.
Variable cells : list (option Q).

Lemma marks_well_made (all levels : list Q) (marks marks' : list (Z * string)) :
  (forall l, In l levels -> In l all) ->
  fold_left (add_mark interpolate cells) levels (Ok marks) = Ok marks' ->
  NoDup (map fst marks) -> Forall (well_made interpolate cells all) marks ->
  NoDup (map fst marks') /\ Forall (well_made interpolate cells all) marks'
  /\ (List.length marks <= List.length marks'
      <= List.length marks + List.length levels)%nat
  /\ (levels <> [] -> (1 <= List.length marks')%nat).
Proof.
  revert marks.
  induction levels as [ | l levels IH]; intros marks Hsub Hrun Hnd Hgood;
    cbn [fold_left] in Hrun.
  - injection Hrun as <-. repeat split; auto; simpl; try lia. congruence.
  - unfold add_mark at 2 in Hrun.
    destruct (quantile interpolate l cells) as [v | | ] eqn:E; cbn [py_int] in Hrun;
      try (rewrite marks_after_raise in Hrun; discriminate).
    set (k := Z.quot (Qnum v) (Zpos (Qden v))) in *.
    destruct (IH (dict_set k (String.append "$" (format_comma k)) marks))
      as (H1 & H2 & H3 & _).
    + intros l' Hl'. apply Hsub. now right.
    + exact Hrun.
    + now apply dict_set_NoDup.
    + apply dict_set_entries; [ | exact Hgood].
      split; [reflexivity | ]. exists l, v. split; [apply Hsub; now left | ].
      split; [exact E | reflexivity].
    + pose proof (dict_set_length k (String.append "$" (format_comma k)) marks).
      pose proof (dict_set_nonempty k (String.append "$" (format_comma k)) marks).
      repeat split; auto; intros; simpl; lia.
Qed.

End Marks.

(** X19: whatever the interpolation, when the marks of the billing slider are
    built there are between one and five of them, no two at the same
    position; each stands at the integer part of the quantile of the Billing
    Amounts at one of the five levels and is labelled with that integer, a
    dollar sign in front and thousands separated by commas. *)
Theorem slider_marks_are_labelled_quantiles :
  forall (interpolate : Q -> list Q -> float_value) (table : list Row)
         (marks : list (Z * string)),
    slider_marks interpolate table = Ok marks ->
    NoDup (map fst marks)
    /\ (1 <= List.length marks <= 5)%nat
    /\ Forall (fun e =>
                 snd e = String.append "$" (format_comma (fst e))
                 /\ exists level value,
                      In level mark_levels
                      /\ quantile interpolate level (map BillingAmount table) = Finite value
                      /\ py_int (Finite value) = Ok (fst e))
              marks.
Proof.
  intros interpolate table marks Hm.
  unfold slider_marks in Hm.
  destruct (marks_well_made interpolate (map BillingAmount table)
              mark_levels mark_levels [] marks) as (H1 & H2 & H3 & H4).
  - auto.
  - exact Hm.
  - constructor.
  - constructor.
  - split; [exact H1 | ]. split; [ | exact H2].
    simpl in H3. split; [apply H4; discriminate | lia].
Qed.

Lemma slider_marks_are_labelled_quantiles_witness :
  slider_marks linear_interpolation sample_table_wide
  = Ok [(300, "$300"); (675, "$675"); (1000, "$1,000"); (2025, "$2,025"); (4500, "$4,500")]
  /\ NoDup (map fst [(300, "$300"); (675, "$675"); (1000, "$1,000");
                     (2025, "$2,025"); (4500, "$4,500")]).
Proof.
  assert (Hm : slider_marks linear_interpolation sample_table_wide
               = Ok [(300, "$300"); (675, "$675"); (1000, "$1,000");
                     (2025, "$2,025"); (4500, "$4,500")]) by (vm_compute; reflexivity).
  split; [exact Hm | ].
  apply (slider_marks_are_labelled_quantiles linear_interpolation sample_table_wide _ Hm).
Defined.

(** ** The loader *)



(** ** Months *)

Lemma parse_iso_date_valid (s : string) (d : date) :
  parse_iso_date s = Some d -> valid_date d = true.
Proof.
  unfold parse_iso_date.
  destruct (read_fixed 4 s 0) as [[y [ | a1 s1]] | ]; try discriminate.
  destruct (Ascii.eqb a1 "-") eqn:E1;
    [apply Ascii.eqb_eq in E1; subst a1 | ].
  - destruct (read_fixed 2 s1 0) as [[m [ | a2 s2]] | ]; try discriminate.
    destruct (Ascii.eqb a2 "-") eqn:E2;
      [apply Ascii.eqb_eq in E2; subst a2 | ].
    + destruct (read_fixed 2 s2 0) as [[dd [ | a3 s3]] | ]; try discriminate.
      destruct (valid_date (mkDate y m dd)) eqn:Ev; [ | discriminate].
      now intros [= <-].
    + destruct a2 as [[] [] [] [] [] [] [] []]; try discriminate.
  - destruct a1 as [[] [] [] [] [] [] [] []]; try discriminate.
Qed.

Lemma loaded_rows_have_valid_months (csv : list CsvRow) (table : list Row) :
  load_data csv = Ok table ->
  Forall (fun r => YearMonth r = option_map to_period (DateOfAdmission r)
                   /\ forall d, DateOfAdmission r = Some d -> valid_date d = true)
         table.
Proof.
  revert table. induction csv as [ | c csv IH]; intros table Hload; simpl in Hload.
  - injection Hload as <-. constructor.
  - unfold load_row in Hload.
    destruct (to_datetime (csv_DateOfAdmission c)) as [d | e] eqn:Ed; [ | discriminate].
    destruct (load_data csv) as [rows | e]; [ | discriminate].
    injection Hload as <-.
    constructor; [ | now apply IH].
    cbn [YearMonth DateOfAdmission]. split; [reflexivity | ].
    intros d' ->. unfold to_datetime in Ed.
    destruct (csv_DateOfAdmission c) as [ | a s]; [discriminate | ].
    destruct (parse_iso_date (String a s)) as [d0 | ] eqn:Ep; [ | discriminate].
    injection Ed as ->. exact (parse_iso_date_valid _ _ Ep).
Qed.

Lemma valid_date_month_range (d : date) :
  valid_date d = true -> 1 <= month d <= 12.
Proof.
  unfold valid_date. rewrite !andb_true_iff. intros [[[H1 H2] _] _].
  apply Z.leb_le in H1. apply Z.leb_le in H2. lia.
Qed.

Lemma to_period_year_month (d : date) :
  1 <= month d <= 12 ->
  1970 + to_period d / 12 = year d /\ to_period d mod 12 + 1 = month d.
Proof.
  intro Hm. unfold to_period.
  assert (Hq : ((year d - 1970) * 12 + (month d - 1)) / 12 = year d - 1970).
  { symmetry. apply (Z.div_unique _ 12 _ (month d - 1)); lia. }
  assert (Hr : ((year d - 1970) * 12 + (month d - 1)) mod 12 = month d - 1).
  { symmetry. apply (Z.mod_unique _ 12 (year d - 1970)); lia. }
  lia.
Qed.

(** X18: in a loaded table every row with an admission date has the month of
    that date as its YearMonth; the label of the month spells its year and its
    month; two such rows share a bucket exactly when they were admitted in the
    same month of the same year, and the earlier month has the smaller
    period. *)
Theorem loaded_rows_bucket_by_calendar_month :
  forall (csv : list CsvRow) (table : list Row) (r1 r2 : Row) (d1 d2 : date),
    load_data csv = Ok table ->
    In r1 table -> In r2 table ->
    DateOfAdmission r1 = Some d1 -> DateOfAdmission r2 = Some d2 ->
    YearMonth r1 = Some (to_period d1)
    /\ period_str (to_period d1)
       = String.append (pad 4 (year d1)) (String.append "-" (pad 2 (month d1)))
    /\ (YearMonth r1 = YearMonth r2 <-> year d1 = year d2 /\ month d1 = month d2)
    /\ (to_period d1 < to_period d2
        <-> year d1 < year d2 \/ (year d1 = year d2 /\ month d1 < month d2)).
Proof.
  intros csv table r1 r2 d1 d2 Hload Hin1 Hin2 Hd1 Hd2.
  pose proof (loaded_rows_have_valid_months csv table Hload) as Hall.
  rewrite Forall_forall in Hall.
  destruct (Hall r1 Hin1) as [Hy1 Hv1]. destruct (Hall r2 Hin2) as [Hy2 Hv2].
  rewrite Hd1 in Hy1. rewrite Hd2 in Hy2. simpl in Hy1, Hy2.
  pose proof (valid_date_month_range d1 (Hv1 d1 Hd1)) as Hm1.
  pose proof (valid_date_month_range d2 (Hv2 d2 Hd2)) as Hm2.
  destruct (to_period_year_month d1 Hm1) as [Hq1 Hr1].
  destruct (to_period_year_month d2 Hm2) as [Hq2 Hr2].
  split; [exact Hy1 | ].
  split; [unfold period_str; now rewrite Hq1, Hr1 | ].
  split.
  - rewrite Hy1, Hy2. split.
    + intro E. injection E as E. rewrite E in Hq1, Hr1. lia.
    + intros [Ey Em]. unfold to_period. now rewrite Ey, Em.
  - unfold to_period. lia.
Qed.

Lemma loaded_rows_bucket_by_calendar_month_witness :
  load_data sample_csv_wide = Ok sample_table_wide
  /\ period_str (to_period (mkDate 2023 4 17)) = "2023-04".
Proof.
  assert (Hload : load_data sample_csv_wide = Ok sample_table_wide) by reflexivity.
  split; [exact Hload | ].
  apply (loaded_rows_bucket_by_calendar_month sample_csv_wide sample_table_wide
           (mkRow (Some 34) (Some "M") (Some "Asthma") (Some "Aetna") (Some (2401 # 2))
                  (Some (mkDate 2023 4 17)) (Some 639))
           (mkRow (Some 71) (Some "F") (Some "Asthma") (Some "Aetna") (Some (300 # 1))
                  (Some (mkDate 2023 4 2)) (Some 639))
           (mkDate 2023 4 17) (mkDate 2023 4 2) Hload).
  - left. reflexivity.
  - right. right. left. reflexivity.
  - reflexivity.
  - reflexivity.
Defined.

(** ** Chart kind and unset condition *)

(** X20: the chart type only chooses between a line and a bar chart over the
    same points; and with no condition selected, None or the empty string,
    the chart is the one over the month buckets of the whole table. *)
Theorem admission_trends_kind_and_unset_condition :
  forall (table : list Row) (chart_type selected_condition : pyval),
    returns table (update_admission_trends (PStr "line") selected_condition)
    = Ok (Line "Admission Trends Over Time" "YearMonth" "Count"
            (trend_points (trend_buckets table selected_condition)))
    /\ returns table (update_admission_trends (PStr "bar") selected_condition)
       = Ok (Bar "Admission Trends Over Time" "YearMonth" "Count"
               (trend_points (trend_buckets table selected_condition)))
    /\ returns table (update_admission_trends chart_type PNone)
       = Ok (trend_chart chart_type (trend_points (groupby_size (map YearMonth table))))
    /\ returns table (update_admission_trends chart_type (PStr ""))
       = returns table (update_admission_trends chart_type PNone).
Proof.
  intros table ct sc. rewrite !returns_trends. repeat split.
Qed.
